(** * Preferences service of Superdesk (server/apps/preferences.py)

    A shallow embedding of [PreferencesService] and of the values it works
    on.  Documents are Python dictionaries with string keys, kept in
    insertion order as Python keeps them; the two stores (users, sessions)
    are collections of documents looked up by their [_id]; the methods that
    mutate their arguments or can raise live in a small state-and-exception
    monad whose state survives a raise, as the objects of a Python program
    do. *)

From Stdlib Require Import String List ZArith Bool Lia DecimalString.
Import ListNotations.
Local Open Scope string_scope.
Local Open Scope list_scope.

Set Warnings "-register-all".

(** ** Values *)

(** The values a document field can hold.  [PObjectId] is the store's id
    type; numbers are integers. *)
Inductive pyval : Type :=
| PNone
| PBool (b : bool)
| PInt (n : Z)
| PStr (s : string)
| PObjectId (hex : string)
| PList (xs : list pyval)
| PDict (items : list (string * pyval)).

(** A dictionary: its items in insertion order. *)
Definition pydict : Type := list (string * pyval).

(** Python truthiness ([bool(v)]). *)
Definition truthy (v : pyval) : bool :=
  match v with
  | PNone => false
  | PBool b => b
  | PInt n => negb (Z.eqb n 0)
  | PStr s => negb (String.eqb s "")
  | PObjectId _ => true
  | PList xs => match xs with [] => false | _ => true end
  | PDict items => match items with [] => false | _ => true end
  end.

(** [v is None]. *)
Definition is_None (v : pyval) : bool :=
  match v with PNone => true | _ => false end.

(** [isinstance(v, dict)]. *)
Definition is_dict (v : pyval) : bool :=
  match v with PDict _ => true | _ => false end.

(** [v == s] for a string literal [s]. *)
Definition eq_str (v : pyval) (s : string) : bool :=
  match v with PStr t => String.eqb t s | _ => false end.

(** Equality of stored values, as the stores match an [_id]. *)
Fixpoint pyval_eqb (a b : pyval) {struct a} : bool :=
  match a, b with
  | PNone, PNone => true
  | PBool x, PBool y => Bool.eqb x y
  | PInt x, PInt y => Z.eqb x y
  | PStr x, PStr y => String.eqb x y
  | PObjectId x, PObjectId y => String.eqb x y
  | PList xs, PList ys =>
      (fix all2 (l : list pyval) (r : list pyval) {struct l} : bool :=
         match l, r with
         | [], [] => true
         | x :: l', y :: r' => pyval_eqb x y && all2 l' r'
         | _, _ => false
         end) xs ys
  | PDict xs, PDict ys =>
      (fix all2 (l : list (string * pyval)) (r : list (string * pyval))
           {struct l} : bool :=
         match l, r with
         | [], [] => true
         | (k, x) :: l', (k', y) :: r' =>
             String.eqb k k' && pyval_eqb x y && all2 l' r'
         | _, _ => false
         end) xs ys
  | _, _ => false
  end.

(** Induction on values that reaches the items of lists and dictionaries. *)
Section pyval_induction.
Variable P : pyval -> Prop.
Hypothesis HNone : P PNone.
Hypothesis HBool : forall b, P (PBool b).
Hypothesis HInt : forall n, P (PInt n).
Hypothesis HStr : forall s, P (PStr s).
Hypothesis HObjectId : forall h, P (PObjectId h).
Hypothesis HList : forall xs, Forall P xs -> P (PList xs).
Hypothesis HDict : forall items, Forall (fun kv => P (snd kv)) items -> P (PDict items).

Fixpoint pyval_nested_ind (v : pyval) : P v :=
  match v with
  | PNone => HNone
  | PBool b => HBool b
  | PInt n => HInt n
  | PStr s => HStr s
  | PObjectId h => HObjectId h
  | PList xs =>
      HList xs ((fix all (l : list pyval) : Forall P l :=
                match l with
                | [] => Forall_nil _
                | x :: l' => Forall_cons x (pyval_nested_ind x) (all l')
                end) xs)
  | PDict items =>
      HDict items ((fix all (l : list (string * pyval)) : Forall (fun kv => P (snd kv)) l :=
                match l with
                | [] => Forall_nil _
                | kv :: l' =>
                    Forall_cons (P := fun kv => P (snd kv)) kv
                                (pyval_nested_ind (snd kv)) (all l')
                end) items)
  end.
End pyval_induction.

(** ** Dictionaries *)

(** [k in d] / [d.get(k)]: the binding of [k], if any. *)
Fixpoint dict_get (d : pydict) (k : string) : option pyval :=
  match d with
  | [] => None
  | (k', v) :: d' => if String.eqb k' k then Some v else dict_get d' k
  end.

Definition dict_contains (d : pydict) (k : string) : bool :=
  match dict_get d k with Some _ => true | None => false end.

(** [d.get(k, default)]. *)
Definition dict_get_default (d : pydict) (k : string) (default : pyval) : pyval :=
  match dict_get d k with Some v => v | None => default end.

(** [d[k] = v]: an existing key keeps its place, a new key goes last. *)
Fixpoint dict_set (d : pydict) (k : string) (v : pyval) : pydict :=
  match d with
  | [] => [(k, v)]
  | (k', v') :: d' =>
      if String.eqb k' k then (k', v) :: d' else (k', v') :: dict_set d' k v
  end.

(** [d.update(other)] for a dictionary [other]: its items are assigned in
    order. *)
Definition dict_update (d other : pydict) : pydict :=
  fold_left (fun acc kv => dict_set acc (fst kv) (snd kv)) other d.

(** [d.setdefault(k, v)], as the resulting dictionary. *)
Definition dict_setdefault (d : pydict) (k : string) (v : pyval) : pydict :=
  match dict_get d k with Some _ => d | None => dict_set d k v end.

Definition dict_keys (d : pydict) : list string := map fst d.

(** A dictionary has each key once. *)
Definition dict_wf (d : pydict) : Prop := NoDup (dict_keys d).

(** ** Exceptions and the service monad *)

(** The exceptions the service can end in. *)
Inductive exn : Type :=
| ValidationError (msg : string)
| KeyError (key : string)
| AttributeError
| TypeError
| ValueError.

Inductive result (A : Type) : Type :=
| Ok (a : A)
| Raise (e : exn).

Arguments Ok {A} a.
Arguments Raise {A} e.

(** A computation over mutable state [S]: it ends in a value or in an
    exception, and in both cases leaves a state behind. *)
Definition M (S A : Type) : Type := S -> result A * S.

Definition ret {S A : Type} (a : A) : M S A := fun s => (Ok a, s).

Definition bind {S A B : Type} (m : M S A) (f : A -> M S B) : M S B :=
  fun s =>
    match m s with
    | (Ok a, s') => f a s'
    | (Raise e, s') => (Raise e, s')
    end.

Definition raise {S A : Type} (e : exn) : M S A := fun s => (Raise e, s).
Definition get {S : Type} : M S S := fun s => (Ok s, s).
Definition put {S : Type} (s : S) : M S unit := fun _ => (Ok tt, s).
Definition lift {S A : Type} (r : result A) : M S A := fun s => (r, s).

Declare Scope service_scope.
Delimit Scope service_scope with service.
Notation "x <- m ;; k" := (bind m (fun x => k))
  (at level 61, m at next level, right associativity) : service_scope.
Notation "m ;; k" := (bind m (fun _ => k))
  (at level 61, right associativity) : service_scope.
Local Open Scope service_scope.

(** ** Operations of Python objects that can raise *)

(** [v.copy()]: dictionaries and lists have it. *)
Definition py_copy (v : pyval) : result pyval :=
  match v with
  | PDict d => Ok (PDict d)
  | PList xs => Ok (PList xs)
  | _ => Raise AttributeError
  end.

(** [v.items()]. *)
Definition py_items (v : pyval) : result pydict :=
  match v with
  | PDict d => Ok d
  | _ => Raise AttributeError
  end.

(** [k in v]. *)
Definition py_contains (v : pyval) (k : string) : result bool :=
  match v with
  | PDict d => Ok (dict_contains d k)
  | PList xs => Ok (existsb (fun x => eq_str x k) xs)
  | PStr s => Ok (match String.index 0 k s with Some _ => true | None => false end)
  | _ => Raise TypeError
  end.

(** [v.get(k, default)]. *)
Definition py_get (v : pyval) (k : string) (default : pyval) : result pyval :=
  match v with
  | PDict d => Ok (dict_get_default d k default)
  | _ => Raise AttributeError
  end.

(** [v[k]] for a string [k]. *)
Definition py_getitem (v : pyval) (k : string) : result pyval :=
  match v with
  | PDict d =>
      match dict_get d k with
      | Some x => Ok x
      | None => Raise (KeyError k)
      end
  | _ => Raise TypeError
  end.

(** [v[k] = x] for a string [k], as the resulting object. *)
Definition py_setitem (v : pyval) (k : string) (x : pyval) : result pyval :=
  match v with
  | PDict d => Ok (PDict (dict_set d k x))
  | _ => Raise TypeError
  end.

(** One element of a sequence given to [dict.update]: it is iterated and
    must yield two items, the key and the value.  A list of two items
    gives them, a string of two characters gives the two characters, a
    dictionary of two keys gives its keys; any other length is a
    [ValueError], an element that cannot be iterated a [TypeError], and so
    is a key that cannot be hashed (a list or a dictionary).  The
    dictionaries here have string keys, as documents have: a pair whose
    key is a number, a boolean, [None] or an ObjectId, which Python would
    take as a key, has no place in them and is classed with the keys
    that are refused. *)
Definition pair_of (elem : pyval) : result (string * pyval) :=
  match elem with
  | PList [PStr k; v] => Ok (k, v)
  | PList [_; _] => Raise TypeError
  | PList _ => Raise ValueError
  | PStr (String a (String b EmptyString)) =>
      Ok (String a EmptyString, PStr (String b EmptyString))
  | PStr _ => Raise ValueError
  | PDict [(k1, _); (k2, _)] => Ok (k1, PStr k2)
  | PDict _ => Raise ValueError
  | PNone | PBool _ | PInt _ | PObjectId _ => Raise TypeError
  end.

(** [d.update(elems)] for a list: the pairs are assigned in order until an
    element is refused. *)
Fixpoint update_pairs (d : pydict) (elems : list pyval) : result pydict :=
  match elems with
  | [] => Ok d
  | elem :: rest =>
      match pair_of elem with
      | Ok (k, v) => update_pairs (dict_set d k v) rest
      | Raise e => Raise e
      end
  end.

(** [target.update(other)], as the resulting object.  A dictionary is
    merged in; a list is taken as a sequence of pairs; a string is
    iterated character by character, so that the empty string changes
    nothing and any other is a [ValueError]; what cannot be iterated is a
    [TypeError]. *)
Definition py_update (target other : pyval) : result pyval :=
  match target with
  | PDict d =>
      match other with
      | PDict o => Ok (PDict (dict_update d o))
      | PList elems =>
          match update_pairs d elems with
          | Ok d' => Ok (PDict d')
          | Raise e => Raise e
          end
      | PStr EmptyString => Ok (PDict d)
      | PStr _ => Raise ValueError
      | PNone | PBool _ | PInt _ | PObjectId _ => Raise TypeError
      end
  | _ => Raise AttributeError
  end.

(** [target.setdefault(k, x)], as the resulting object. *)
Definition py_setdefault (target : pyval) (k : string) (x : pyval) : result pyval :=
  match target with
  | PDict d => Ok (PDict (dict_setdefault d k x))
  | _ => Raise AttributeError
  end.

(** ** The stores *)

(** The User Store and the Session Store: collections of documents. *)
Record world : Type := {
  users : list pydict;
  sessions : list pydict
}.

Definition has_id (id : pyval) (doc : pydict) : bool :=
  match dict_get doc "_id" with
  | Some v => pyval_eqb v id
  | None => false
  end.

(** Modelled from the spec: [find_one] of a store, which is not part of
    this module ([find_one(id) -> document | not_found]): the document
    whose [_id] is [id], or [None]. *)
Definition store_find_one (coll : list pydict) (id : pyval) : pyval :=
  match find (has_id id) coll with
  | Some doc => PDict doc
  | None => PNone
  end.

(** Modelled from the spec: the backend's [update] of the User Store, which
    is not part of this module ([update(id, changes, original)]): the
    fields of [changes] are set on the stored document whose [_id] is
    [id]. *)
Fixpoint store_update (coll : list pydict) (id : pyval) (changes : pydict)
  : list pydict :=
  match coll with
  | [] => []
  | doc :: rest =>
      if has_id id doc then dict_update doc changes :: rest
      else doc :: store_update rest id changes
  end.

(** [backend.update(datasource, id, changes, original)]: the update of the
    User Store, giving back the stored document. *)
Definition backend_update (id : pyval) (changes : pydict) (original : pyval) : M world pyval :=
  w <- get ;;
  let users' := store_update (users w) id changes in
  put {| users := users'; sessions := sessions w |} ;;
  ret (store_find_one users' id).

(** ** The request context *)

(** What the service reads from the web framework's globals:
    [request.view_args['_id']], a string taken from the URL, and
    [g.user], the document of the authenticated caller. *)
Record flask : Type := {
  view_args_id : string;
  g_user : pydict
}.

(** ** Field names *)

Definition _preferences_key : string := "preferences".
Definition _user_preferences_key : string := "user_preferences".
Definition _session_preferences_key : string := "session_preferences".
Definition _privileges_key : string := "active_privileges".
Definition _action_key : string := "allowed_actions".

(** ** The surroundings of the service *)

(** What the module takes from the rest of the application: the two
    preference registries of the [superdesk] package, the Privilege
    Resolver ([get_role] and the privilege map [set_privileges] computes
    from a document and its role, [get_privileged_actions]) and the text
    [str] gives for a list or a dictionary. *)
Class Surroundings : Type := {
  default_user_preferences : pydict;
  default_session_preferences : pydict;
  get_role : pydict -> pyval;
  role_privileges : pydict -> pyval -> pyval;
  get_privileged_actions : pyval -> pyval;
  repr_container : pyval -> string
}.

(** Modelled from the spec: the registration functions of the [superdesk]
    package, which are not part of this module: registering a key adds an
    entry, registering it again overwrites the entry. *)
Definition register_default_user_preference
  (registry : pydict) (preference_name : string) (preference : pyval) : pydict :=
  dict_set registry preference_name preference.

Definition register_default_session_preference
  (registry : pydict) (preference_name : string) (preference : pyval) : pydict :=
  dict_set registry preference_name preference.

(** The registrations made by the body of [PreferencesResource], in the
    order the class body makes them. *)
Definition resource_user_preferences : pydict :=
  let r := [] in
  let r := register_default_user_preference r "feature:preview"
    (PDict [("type", PStr "bool"); ("enabled", PBool false);
            ("default", PBool false);
            ("label", PStr "Enable Feature Preview");
            ("category", PStr "feature")]) in
  let r := register_default_user_preference r "archive:view"
    (PDict [("type", PStr "string");
            ("allowed", PList [PStr "mgrid"; PStr "compact"]);
            ("view", PStr "mgrid"); ("default", PStr "mgrid");
            ("label", PStr "Users archive view format");
            ("category", PStr "archive")]) in
  let r := register_default_user_preference r "editor:theme"
    (PDict [("type", PStr "string"); ("theme", PStr "");
            ("label", PStr "Users article edit screen editor theme");
            ("category", PStr "editor")]) in
  register_default_user_preference r "workqueue:items"
    (PDict [("items", PList [])]).

Definition resource_session_preferences : pydict :=
  let r := [] in
  let r := register_default_session_preference r "scratchpad:items" (PList []) in
  let r := register_default_session_preference r "desk:last_worked" (PStr "") in
  let r := register_default_session_preference r "desk:items" (PList []) in
  let r := register_default_session_preference r "stage:items" (PList []) in
  register_default_session_preference r "pinned:items" (PList []).

(** ** The service *)

Section Service.
Context `{Surroundings}.

(** [str(v)]: exact on the scalars; for a list or a dictionary it is the
    text the surroundings give. *)
Definition py_str (v : pyval) : string :=
  match v with
  | PNone => "None"
  | PBool true => "True"
  | PBool false => "False"
  | PInt n => DecimalString.NilZero.string_of_int (Z.to_int n)
  | PStr s => s
  | PObjectId hex => hex
  | PList _ | PDict _ => repr_container v
  end.

(** Modelled from the spec: [set_privileges] of the users service, which is
    not part of this module: it writes the privilege map computed from the
    document and its role into the document's [active_privileges]. *)
Definition set_privileges (user : pydict) (role : pyval) : pydict :=
  dict_set user _privileges_key (role_privileges user role).

(** The Privilege Resolver's output for a document: the privilege map of
    the document and the role [get_role] finds for it. *)
Definition resolve_privileges (doc : pydict) : pyval :=
  role_privileges doc (get_role doc).

(** [enhance_document_with_user_privileges(user_doc)], as the document it
    leaves behind. *)
Definition enhance_document_with_user_privileges (user_doc : pydict) : pydict :=
  let role_doc := get_role user_doc in
  set_privileges user_doc role_doc.

(** What the two closing lines of [set_session_based_prefs] (110-111) and
    of [on_update] (151-152) leave in [updates]. *)
Definition stamped (updates : pydict) : pydict :=
  dict_set (enhance_document_with_user_privileges updates) _action_key
           (get_privileged_actions (resolve_privileges updates)).

(** The dictionary [session_prefs] of [set_session_based_prefs] is the
    user document's own [session_preferences] object when the document
    has one: what [setdefault] adds to it is added in the document. *)
Definition share_session_preferences (user_doc session_prefs : pyval) : pyval :=
  match user_doc with
  | PDict d =>
      if dict_contains d _session_preferences_key
      then PDict (dict_set d _session_preferences_key session_prefs)
      else user_doc
  | _ => user_doc
  end.

(** Lines 103-105 of [set_session_based_prefs], for a user document that
    is a dictionary: the preferences a new session starts from. *)
Definition session_seed (user_doc : pydict) : pydict :=
  let available := default_session_preferences in
  if eq_str (dict_get_default available "desk:last_worked" PNone) ""
     && truthy (dict_get_default user_doc "desk" PNone)
  then dict_set available "desk:last_worked" (dict_get_default user_doc "desk" PNone)
  else available.

(** Lines 95-108 of [set_session_based_prefs]: the dictionary [updates]
    before the privileges are added, and the user document as the
    method leaves it. *)
Definition initial_updates (session_id user_doc : pyval) : M world (pydict * pyval) :=
  let updates : pydict := [] in
  present <- lift (py_contains user_doc _user_preferences_key) ;;
  updates <-
    (if negb present then
       orig_user_prefs <- lift (py_get user_doc _preferences_key (PDict [])) ;;
       available <- lift (py_update (PDict default_user_preferences) orig_user_prefs) ;;
       ret (dict_set updates _user_preferences_key available)
     else ret updates) ;;
  session_prefs <- lift (py_get user_doc _session_preferences_key (PDict [])) ;;
  let available := default_session_preferences in
  available <-
    (if eq_str (dict_get_default available "desk:last_worked" PNone) "" then
       desk <- lift (py_get user_doc "desk" PNone) ;;
       if truthy desk then ret (dict_set available "desk:last_worked" desk)
       else ret available
     else ret available) ;;
  session_prefs <-
    lift (py_setdefault session_prefs (py_str session_id) (PDict available)) ;;
  let user_doc := share_session_preferences user_doc session_prefs in
  let updates := dict_set updates _session_preferences_key session_prefs in
  ret (updates, user_doc).

Definition set_session_based_prefs (session_id user_id : pyval) : M world unit :=
  w <- get ;;
  let user_doc := store_find_one (users w) user_id in
  p <- initial_updates session_id user_doc ;;
  let updates := fst p in
  let user_doc := snd p in
  let updates := enhance_document_with_user_privileges updates in
  privs <- lift (py_getitem (PDict updates) _privileges_key) ;;
  let updates := dict_set updates _action_key (get_privileged_actions privs) in
  backend_update user_id updates user_doc ;;
  ret tt.

Definition find_one (lookup : pydict) : M world pyval :=
  w <- get ;;
  lookup_id <- lift (py_getitem (PDict lookup) "_id") ;;
  let session := store_find_one (sessions w) lookup_id in
  _id <- (if truthy session then lift (py_getitem session "user")
          else ret lookup_id) ;;
  let doc := store_find_one (users w) _id in
  if truthy doc then
    new_id <- (if truthy session then lift (py_getitem session "_id")
               else ret _id) ;;
    lift (py_setitem doc "_id" new_id)
  else ret doc.

(** [on_fetched_item(doc)]; the state is the document, which the method
    changes in place. *)
Definition on_fetched_item (rq : flask) : M pydict unit :=
  doc <- get ;;
  let session_id := view_args_id rq in
  session_prefs <-
    lift (py_getitem (dict_get_default doc _session_preferences_key (PDict []))
                     session_id) ;;
  put (dict_set doc _session_preferences_key session_prefs).

(** What [on_update] can reach: the stores and its two arguments, both
    changed in place. *)
Record update_args : Type := {
  store : world;
  updates : pydict;
  original : pydict
}.

Definition with_updates (a : update_args) (u : pydict) : update_args :=
  {| store := store a; updates := u; original := original a |}.

Definition set_updates (f : pydict -> pydict) : M update_args unit :=
  a <- get ;;
  put {| store := store a; updates := f (updates a); original := original a |}.

Definition set_original (f : pydict -> pydict) : M update_args unit :=
  a <- get ;;
  put {| store := store a; updates := updates a; original := f (original a) |}.

(** The generator [(k for k, v in prefs.items() if k not in registry)]. *)
Definition unregistered (registry items : pydict) : list string :=
  map fst (filter (fun kv => negb (dict_contains registry (fst kv))) items).

(** The loop over that generator: it raises at the first key. *)
Definition validate {S : Type} (registry : pydict) (prefs : pyval) : M S unit :=
  items <- lift (py_items prefs) ;;
  match unregistered registry items with
  | k :: _ => raise (ValidationError ("Invalid preference: " ++ k))
  | [] => ret tt
  end.

(** The copy of line 131 is shallow: the entry of a session is one object,
    reached from the copy and from [original], so that its [update] shows
    in both. *)
Definition write_session_entry (doc : pydict) (session_id : string) (entry : pyval)
  : pydict :=
  match dict_get doc _session_preferences_key with
  | Some (PDict sp) =>
      dict_set doc _session_preferences_key (PDict (dict_set sp session_id entry))
  | _ => doc
  end.

Definition with_entry (prefs : pyval) (session_id : string) (entry : pyval) : pyval :=
  match prefs with
  | PDict d => PDict (dict_set d session_id entry)
  | _ => prefs
  end.

(** Lines 133-140 of [on_update]. *)
Definition merge_user_preferences (existing_user_preferences : pyval)
  : M update_args unit :=
  a <- get ;;
  let user_prefs := dict_get_default (updates a) _user_preferences_key PNone in
  if is_None user_prefs then ret tt
  else
    validate default_user_preferences user_prefs ;;
    existing_user_preferences <- lift (py_update existing_user_preferences user_prefs) ;;
    set_updates (fun u => dict_set u _user_preferences_key existing_user_preferences).

(** Lines 142-149 of [on_update]. *)
Definition merge_session_preferences (rq : flask) (existing_session_preferences : pyval)
  : M update_args unit :=
  let session_id := view_args_id rq in
  a <- get ;;
  let session_prefs := dict_get_default (updates a) _session_preferences_key PNone in
  if is_None session_prefs then ret tt
  else
    validate default_session_preferences session_prefs ;;
    entry <- lift (py_getitem existing_session_preferences session_id) ;;
    entry <- lift (py_update entry session_prefs) ;;
    set_original (fun o => write_session_entry o session_id entry) ;;
    let existing_session_preferences :=
      with_entry existing_session_preferences session_id entry in
    set_updates (fun u => dict_set u _session_preferences_key existing_session_preferences).

(** Lines 130-149 of [on_update]: the two copies, then the two merges. *)
Definition merge_preferences (rq : flask) : M update_args unit :=
  a <- get ;;
  existing_user_preferences <-
    lift (py_copy (dict_get_default (original a) _user_preferences_key (PDict []))) ;;
  existing_session_preferences <-
    lift (py_copy (dict_get_default (original a) _session_preferences_key (PDict []))) ;;
  merge_user_preferences existing_user_preferences ;;
  merge_session_preferences rq existing_session_preferences.

(** Lines 151-152 of [on_update]. *)
Definition stamp_privileges : M update_args unit :=
  set_updates enhance_document_with_user_privileges ;;
  a <- get ;;
  privs <- lift (py_getitem (PDict (updates a)) _privileges_key) ;;
  set_updates (fun u => dict_set u _action_key (get_privileged_actions privs)).

Definition on_update (rq : flask) : M update_args unit :=
  merge_preferences rq ;;
  stamp_privileges.

Definition update (id : pyval) (updates original : pydict) : M world pyval :=
  w <- get ;;
  session_id <- lift (py_getitem (PDict original) "_id") ;;
  let session := store_find_one (sessions w) session_id in
  user_id <- lift (py_getitem session "user") ;;
  let original := store_find_one (users w) user_id in
  original_id <- lift (py_getitem original "_id") ;;
  backend_update original_id updates original.

(** [get_user_preference(user_id)]: the method it calls on [self],
    [enhance_document_with_default_user_prefs], is defined nowhere. *)
Definition get_user_preference (user_id : pyval) : M world pyval :=
  w <- get ;;
  let doc := store_find_one (users w) user_id in
  raise (A := unit) AttributeError ;;
  lift (py_get doc _user_preferences_key (PDict [])).

Definition email_notification_is_enabled (user_id preferences : pyval) : M world pyval :=
  preferences <-
    (if truthy user_id then get_user_preference user_id else ret preferences) ;;
  send_email <-
    (if is_dict preferences
     then lift (py_get preferences "email:notification" (PDict []))
     else ret (PDict [])) ;;
  if truthy send_email then lift (py_get send_email "enabled" (PBool false))
  else ret send_email.

Definition is_authorized (rq : flask) (kwargs : pydict) : M world pyval :=
  if is_None (dict_get_default kwargs "user_id" PNone) then ret (PBool false)
  else
    w <- get ;;
    let session :=
      store_find_one (sessions w) (dict_get_default kwargs "user_id" PNone) in
    caller <- lift (py_getitem (PDict (g_user rq)) "_id") ;;
    owner <- lift (py_get session "user" PNone) ;;
    let authorized := String.eqb (py_str caller) (py_str owner) in
    ret (PBool authorized).

(** [enhance_document_with_default_prefs(session_doc, user_doc)]; the state
    is [session_doc], which the method changes in place ([user_doc] is
    another object, only read). *)
Definition enhance_document_with_default_prefs (user_doc : pyval) : M pydict unit :=
  orig_user_prefs <- lift (py_get user_doc _preferences_key (PDict [])) ;;
  available <- lift (py_update (PDict default_user_preferences) orig_user_prefs) ;;
  session_doc <- get ;;
  put (dict_set session_doc _user_preferences_key available) ;;
  session_doc <- get ;;
  let orig_session_prefs :=
    dict_get_default session_doc _session_preferences_key (PDict []) in
  available <- lift (py_update (PDict default_session_preferences) orig_session_prefs) ;;
  last_worked <- lift (py_get available "desk:last_worked" PNone) ;;
  available <-
    (if eq_str last_worked "" then
       desk <- lift (py_get user_doc "desk" PNone) ;;
       if truthy desk then lift (py_setitem available "desk:last_worked" desk)
       else ret available
     else ret available) ;;
  session_doc <- get ;;
  put (dict_set session_doc _session_preferences_key available).

(** Lines 165-170 of [enhance_document_with_default_prefs], for arguments
    that are dictionaries: the session preferences it writes. *)
Definition filled_session_preferences (user_doc orig_session_prefs : pydict) : pydict :=
  let available := dict_update default_session_preferences orig_session_prefs in
  if eq_str (dict_get_default available "desk:last_worked" PNone) ""
     && truthy (dict_get_default user_doc "desk" PNone)
  then dict_set available "desk:last_worked" (dict_get_default user_doc "desk" PNone)
  else available.

End Service.

(** ** Documents of the data model *)

(** A preference field of a user document is a mapping when the document
    has it. *)
Definition mapping_or_absent (doc : pydict) (key : string) : bool :=
  match dict_get doc key with
  | None | Some (PDict _) => true
  | Some _ => false
  end.

(** A preference map of an update passes the validation of [on_update]
    when it is absent (or [None]), or a mapping of registered keys. *)
Definition registered_or_absent (registry doc : pydict) (key : string) : bool :=
  match dict_get_default doc key PNone with
  | PNone => true
  | PDict prefs =>
      match unregistered registry prefs with
      | [] => true
      | _ :: _ => false
      end
  | _ => false
  end.

(** ** A newsroom to run the service in *)

(** Surroundings for the worked examples: the registries as
    [PreferencesResource] fills them, a role read from the document's
    [role] field, the privileges the role grants, and the granted
    privileges as the allowed actions.  No identifier of the examples is
    a list or a dictionary, so [repr_container] is a stand-in. *)
Definition newsroom : Surroundings := {|
  default_user_preferences := resource_user_preferences;
  default_session_preferences := resource_session_preferences;
  get_role := fun user => dict_get_default user "role" PNone;
  role_privileges := fun user role =>
    match role with
    | PDict r => dict_get_default r "privileges" (PDict [])
    | _ => dict_get_default user "privileges" (PDict [])
    end;
  get_privileged_actions := fun privs =>
    match privs with
    | PDict p => PList (map (fun kv => PStr (fst kv)) (filter (fun kv => truthy (snd kv)) p))
    | _ => PList []
    end;
  repr_container := fun _ => "<container>"
|}.

(** A user with legacy flat preferences and a desk, who never opened a
    session. *)
Definition user_ann : pydict :=
  [("_id", PObjectId "a11"); ("username", PStr "ann");
   ("preferences", PDict [("archive:view", PStr "compact")]);
   ("desk", PStr "desk42")].

(** A user with two open sessions, whose role grants [publish]. *)
Definition user_bob : pydict :=
  [("_id", PObjectId "b0b"); ("username", PStr "bob");
   ("role", PDict [("name", PStr "editor");
                   ("privileges", PDict [("publish", PInt 1)])]);
   ("user_preferences",
    PDict [("feature:preview", PBool false); ("archive:view", PStr "mgrid")]);
   ("session_preferences",
    PDict [("s1", PDict [("desk:last_worked", PStr "sports"); ("pinned:items", PList [])]);
           ("s2", PDict [("desk:last_worked", PStr "politics")])])].

Definition desk_world : world := {|
  users := [user_ann; user_bob];
  sessions := [ [("_id", PStr "s1"); ("user", PObjectId "b0b")];
                [("_id", PStr "s2"); ("user", PObjectId "b0b")];
                [("_id", PStr "s3"); ("user", PObjectId "a11")] ]
|}.

(** Stores with a session whose user is gone and a session that names no
    user. *)
Definition orphan_world : world := {|
  users := [user_ann];
  sessions := [ [("_id", PStr "s4"); ("user", PObjectId "9a9")];
                [("_id", PStr "s5")] ]
|}.

(** A request on session [s1] made by bob. *)
Definition bob_on_s1 : flask := {| view_args_id := "s1"; g_user := user_bob |}.

(** Bob's document as [find_one] gives it for session [s1]. *)
Definition bob_fetched : pydict := dict_set user_bob "_id" (PStr "s1").

(** Updates bob sends on session [s1]: a registered user preference; the
    same with an unregistered key besides; session preferences together
    with privileges of his own making. *)
Definition patch_view : update_args := {|
  store := desk_world;
  updates := [("user_preferences", PDict [("archive:view", PStr "compact")])];
  original := bob_fetched
|}.

Definition patch_unknown : update_args := {|
  store := desk_world;
  updates := [("user_preferences",
               PDict [("archive:view", PStr "compact"); ("unknown:key", PBool true)])];
  original := bob_fetched
|}.

Definition patch_desk : update_args := {|
  store := desk_world;
  updates := [("session_preferences", PDict [("desk:last_worked", PStr "world")]);
              ("active_privileges", PDict [("root", PInt 1)]);
              ("allowed_actions", PList [PStr "publish"])];
  original := bob_fetched
|}.

(** Further updates on bob's document: session preferences with a key the
    session registry does not know, and an update that carries no
    preferences at all. *)
Definition patch_bogus : update_args := {|
  store := desk_world;
  updates := [("user_preferences", PDict [("archive:view", PStr "compact")]);
              ("session_preferences",
               PDict [("desk:last_worked", PStr "world"); ("bogus", PInt 1)])];
  original := bob_fetched
|}.

Definition patch_plain : update_args := {|
  store := desk_world;
  updates := [("_updated", PStr "2015-03-01"); ("user_preferences", PNone)];
  original := bob_fetched
|}.

(** The document of a session as a client may hold it: one session
    preference set, to the empty string. *)
Definition session_view : pydict :=
  [("_id", PStr "s3"); ("user_preferences", PDict [("stale", PInt 0)]);
   ("session_preferences", PDict [("desk:last_worked", PStr "")])].

(** A request made by bob on a session his document has no entry for. *)
Definition bob_on_s9 : flask := {| view_args_id := "s9"; g_user := user_bob |}.

(** ** Lookup after assignment *)

Lemma dict_get_set_eq (d : pydict) k v : dict_get (dict_set d k v) k = Some v.
Proof.
  induction d as [|[k' v'] d IH]; simpl.
  - now rewrite String.eqb_refl.
  - destruct (String.eqb k' k) eqn:E; simpl; rewrite E; auto.
Qed.

Lemma dict_get_set_ne (d : pydict) k k' v :
  k <> k' -> dict_get (dict_set d k v) k' = dict_get d k'.
Proof.
  intros Hne. induction d as [|[k0 v0] d IH]; simpl.
  - destruct (String.eqb_spec k k'); [contradiction | reflexivity].
  - destruct (String.eqb_spec k0 k) as [->|Hk]; simpl.
    + destruct (String.eqb_spec k k'); [contradiction | reflexivity].
    + now rewrite IH.
Qed.

Lemma dict_get_set (d : pydict) k k' v :
  dict_get (dict_set d k v) k' =
  if String.eqb k k' then Some v else dict_get d k'.
Proof.
  destruct (String.eqb_spec k k') as [->|Hne].
  - apply dict_get_set_eq.
  - now apply dict_get_set_ne.
Qed.

Lemma dict_get_In (d : pydict) k v : dict_get d k = Some v -> In (k, v) d.
Proof.
  induction d as [|[k' v'] d IH]; simpl; [discriminate|].
  destruct (String.eqb_spec k' k) as [->|Hne]; intros H.
  - injection H as ->. now left.
  - right. auto.
Qed.

Lemma dict_get_None (d : pydict) k : dict_get d k = None <-> ~ In k (dict_keys d).
Proof.
  induction d as [|[k' v'] d IH]; simpl.
  - tauto.
  - destruct (String.eqb_spec k' k) as [->|Hne].
    + split; [discriminate | intros H; exfalso; apply H; now left].
    + rewrite IH. tauto.
Qed.

Lemma dict_keys_set_in (d : pydict) k v :
  In k (dict_keys d) -> dict_keys (dict_set d k v) = dict_keys d.
Proof.
  induction d as [|[k' v'] d IH]; simpl; [tauto|].
  destruct (String.eqb_spec k' k) as [->|Hne]; simpl; [reflexivity|].
  intros [H|H]; [contradiction|]. now rewrite IH.
Qed.

Lemma dict_keys_set_notin (d : pydict) k v :
  ~ In k (dict_keys d) -> dict_keys (dict_set d k v) = dict_keys d ++ [k].
Proof.
  induction d as [|[k' v'] d IH]; simpl; [reflexivity|].
  destruct (String.eqb_spec k' k) as [->|Hne]; simpl.
  - intros H. exfalso. apply H. now left.
  - intros H. rewrite IH; tauto.
Qed.

Lemma dict_set_wf (d : pydict) k v : dict_wf d -> dict_wf (dict_set d k v).
Proof.
  unfold dict_wf. intros Hd.
  destruct (in_dec string_dec k (dict_keys d)) as [Hin|Hout].
  - now rewrite dict_keys_set_in.
  - rewrite dict_keys_set_notin by assumption.
    apply NoDup_app; [assumption | repeat constructor; simpl; tauto |].
    intros x Hx [<-|[]]. contradiction.
Qed.

(** [update]: a key of [other] takes [other]'s value, any other key keeps
    its own. *)
Lemma dict_get_update (other d : pydict) k :
  dict_wf other ->
  dict_get (dict_update d other) k =
  match dict_get other k with Some v => Some v | None => dict_get d k end.
Proof.
  unfold dict_update, dict_wf.
  revert d. induction other as [|[k' v'] other IH]; intros d Hwf; simpl.
  - reflexivity.
  - simpl in Hwf. inversion Hwf as [|? ? Hnotin Hrest]; subst.
    rewrite IH by assumption.
    destruct (String.eqb_spec k' k) as [->|Hne].
    + apply dict_get_None in Hnotin. rewrite Hnotin. apply dict_get_set_eq.
    + destruct (dict_get other k); [reflexivity|].
      now apply dict_get_set_ne.
Qed.

Lemma dict_update_wf (other d : pydict) : dict_wf d -> dict_wf (dict_update d other).
Proof.
  unfold dict_update. revert d.
  induction other as [|[k v] other IH]; intros d Hd; simpl; [assumption|].
  apply IH. now apply dict_set_wf.
Qed.

Lemma dict_get_setdefault_eq (d : pydict) k v :
  dict_get (dict_setdefault d k v) k =
  match dict_get d k with Some old => Some old | None => Some v end.
Proof.
  unfold dict_setdefault. destruct (dict_get d k) eqn:E.
  - exact E.
  - apply dict_get_set_eq.
Qed.

Lemma dict_get_setdefault_ne (d : pydict) k k' v :
  k <> k' -> dict_get (dict_setdefault d k v) k' = dict_get d k'.
Proof.
  intros Hne. unfold dict_setdefault. destruct (dict_get d k); [reflexivity|].
  now apply dict_get_set_ne.
Qed.

Lemma dict_set_same (d : pydict) k v : dict_get d k = Some v -> dict_set d k v = d.
Proof.
  induction d as [|[k' v'] d IH]; simpl; [discriminate|].
  destruct (String.eqb_spec k' k) as [->|Hne]; intros Hget.
  - now injection Hget as ->.
  - now rewrite IH.
Qed.

(** ** Equality of values *)

Lemma pyval_eqb_eq (a b : pyval) : pyval_eqb a b = true -> a = b.
Proof.
  revert b. induction a as [| x | x | x | x | xs IH | xs IH] using pyval_nested_ind;
    intros [| y | y | y | y | ys | ys]; simpl; try discriminate; intros E.
  - reflexivity.
  - apply Bool.eqb_prop in E. now subst.
  - apply Z.eqb_eq in E. now subst.
  - apply String.eqb_eq in E. now subst.
  - apply String.eqb_eq in E. now subst.
  - f_equal. revert ys E.
    induction IH as [|x xs Hx _ IHxs]; intros [|y ys] E; try discriminate.
    + reflexivity.
    + apply andb_prop in E as [E1 E2]. f_equal; auto.
  - f_equal. revert ys E.
    induction IH as [|[k x] xs Hx _ IHxs]; intros [|[k' y] ys] E; try discriminate.
    + reflexivity.
    + apply andb_prop in E as [E12 E3]. apply andb_prop in E12 as [E1 E2].
      apply String.eqb_eq in E1. simpl in Hx. f_equal; [f_equal|]; auto.
Qed.

(** ** The stores *)

Lemma store_find_one_id (coll : list pydict) id doc :
  store_find_one coll id = PDict doc -> dict_get doc "_id" = Some id.
Proof.
  unfold store_find_one. destruct (find (has_id id) coll) as [d|] eqn:F; [|discriminate].
  intros E. injection E as ->. apply find_some in F as [_ Hid].
  unfold has_id in Hid. destruct (dict_get doc "_id") as [v|]; [|discriminate].
  now apply pyval_eqb_eq in Hid as ->.
Qed.

Lemma store_find_one_truthy (coll : list pydict) id :
  truthy (store_find_one coll id) = true ->
  exists doc, store_find_one coll id = PDict doc.
Proof.
  unfold store_find_one. destruct (find (has_id id) coll) as [d|]; [|discriminate].
  eauto.
Qed.

Lemma store_found_truthy (coll : list pydict) id doc :
  store_find_one coll id = PDict doc -> truthy (PDict doc) = true.
Proof.
  intros F. apply store_find_one_id in F. destruct doc; [discriminate | reflexivity].
Qed.

(** A stored document whose [_id] is left alone by [changes] is found
    again after the update, with the changes made. *)
Lemma store_update_found (coll : list pydict) id changes doc :
  dict_wf changes ->
  dict_get changes "_id" = None ->
  store_find_one coll id = PDict doc ->
  store_find_one (store_update coll id changes) id = PDict (dict_update doc changes).
Proof.
  intros Hwf Hid. unfold store_find_one.
  induction coll as [|d coll IH]; simpl; [discriminate|].
  destruct (has_id id d) eqn:E; simpl.
  - intros F. injection F as ->.
    assert (has_id id (dict_update doc changes) = true) as ->; [|reflexivity].
    unfold has_id in *. now rewrite dict_get_update, Hid.
  - rewrite E. exact IH.
Qed.

(** ** Running the monad *)

Lemma bind_ok {S A B : Type} (m : M S A) (f : A -> M S B) s a s' :
  m s = (Ok a, s') -> bind m f s = f a s'.
Proof. unfold bind. now intros ->. Qed.

Lemma bind_raise {S A B : Type} (m : M S A) (f : A -> M S B) s e s' :
  m s = (Raise e, s') -> bind m f s = (Raise e, s').
Proof. unfold bind. now intros ->. Qed.

(** A successful [bind] went through a successful first step. *)
Lemma bind_ok_inv {S A B : Type} (m : M S A) (f : A -> M S B) s b s2 :
  bind m f s = (Ok b, s2) ->
  exists a s1, m s = (Ok a, s1) /\ f a s1 = (Ok b, s2).
Proof.
  unfold bind. destruct (m s) as [[a|e] s1]; [eauto | discriminate].
Qed.

Ltac run := unfold bind, ret, lift, get, put, raise; cbn beta iota.
Ltac run_in E := unfold bind, ret, lift, get, put, raise in E; cbn beta iota in E.

(** ** Fetching an item *)

(** C9: [on_fetched_item] replaces the document's [session_preferences] by
    the entry of the requesting session, and raises [KeyError] for the
    session id, the document untouched, when the document has no entry for
    that session. *)
Theorem on_fetched_item_narrows (rq : flask) (doc : pydict) :
  (forall sp entry,
      dict_get doc _session_preferences_key = Some (PDict sp) ->
      dict_get sp (view_args_id rq) = Some entry ->
      on_fetched_item rq doc
        = (Ok tt, dict_set doc _session_preferences_key entry)
      /\ dict_get (snd (on_fetched_item rq doc)) _session_preferences_key
         = Some entry)
  /\
  (forall sp,
      dict_get_default doc _session_preferences_key (PDict []) = PDict sp ->
      dict_get sp (view_args_id rq) = None ->
      on_fetched_item rq doc = (Raise (KeyError (view_args_id rq)), doc)).
Proof.
  split.
  - intros sp entry Hsp Hentry.
    assert (on_fetched_item rq doc
            = (Ok tt, dict_set doc _session_preferences_key entry)) as E.
    { unfold on_fetched_item, dict_get_default. run.
      rewrite Hsp. unfold py_getitem. now rewrite Hentry. }
    split; [exact E|]. rewrite E. simpl. apply dict_get_set_eq.
  - intros sp Hsp Hentry. unfold on_fetched_item. run.
    rewrite Hsp. unfold py_getitem. now rewrite Hentry.
Qed.

Lemma on_fetched_item_narrows_witness :
  on_fetched_item bob_on_s1 user_bob
    = (Ok tt,
       dict_set user_bob _session_preferences_key
         (PDict [("desk:last_worked", PStr "sports"); ("pinned:items", PList [])]))
  /\ on_fetched_item bob_on_s1 user_ann = (Raise (KeyError "s1"), user_ann).
Proof.
  split.
  - eapply (proj1 (on_fetched_item_narrows bob_on_s1 user_bob)); reflexivity.
  - eapply (proj2 (on_fetched_item_narrows bob_on_s1 user_ann)); reflexivity.
Defined.

(** ** E-mail notification *)

(** What the method computes when no user id is given. *)
Lemma email_notification_without_user (user_id preferences : pyval) (w : world) :
  truthy user_id = false ->
  email_notification_is_enabled user_id preferences w =
  (match preferences with
   | PDict d =>
       let send_email := dict_get_default d "email:notification" (PDict []) in
       if truthy send_email then py_get send_email "enabled" (PBool false)
       else Ok send_email
   | _ => Ok (PDict [])
   end, w).
Proof.
  intros Hid. unfold email_notification_is_enabled. rewrite Hid. run.
  destruct preferences; try reflexivity. simpl.
  destruct (truthy (dict_get_default items "email:notification" (PDict []))); reflexivity.
Qed.

(** C10: without a user id, [email_notification_is_enabled] returns a
    truthy value exactly when [preferences] is a dictionary whose
    ['email:notification'] entry is a non-empty dictionary with a truthy
    ['enabled'] value; when [preferences] is no dictionary, or has no such
    entry, it returns a falsy value and does not raise. *)
Theorem email_notification_enabled_iff (user_id preferences : pyval) (w : world) :
  truthy user_id = false ->
  ((exists v, fst (email_notification_is_enabled user_id preferences w) = Ok v
              /\ truthy v = true)
   <->
   (exists d e enabled,
       preferences = PDict d
       /\ dict_get d "email:notification" = Some (PDict e)
       /\ e <> []
       /\ dict_get e "enabled" = Some enabled
       /\ truthy enabled = true))
  /\
  ((is_dict preferences = false
    \/ exists d, preferences = PDict d /\ dict_get d "email:notification" = None) ->
   exists v, email_notification_is_enabled user_id preferences w = (Ok v, w)
             /\ truthy v = false).
Proof.
  intros Hid. rewrite (email_notification_without_user user_id preferences w Hid).
  split; [split|].
  - intros (v & Hv & Htrue). simpl in Hv.
    destruct preferences as [| | | | | |d];
      try (injection Hv as <-; discriminate).
    cbv zeta in Hv. unfold dict_get_default in Hv.
    destruct (dict_get d "email:notification") as [send_email|] eqn:Hentry;
      [|simpl in Hv; injection Hv as <-; discriminate].
    destruct (truthy send_email) eqn:Hsend;
      [|injection Hv as <-; congruence].
    destruct send_email as [| | | | | |e]; try discriminate.
    simpl in Hv. injection Hv as <-. unfold dict_get_default in Htrue.
    destruct (dict_get e "enabled") as [enabled|] eqn:Henabled; [|discriminate].
    exists d, e, enabled. repeat split; auto.
    intros ->. discriminate.
  - intros (d & e & enabled & -> & Hentry & Hne & Henabled & Htrue).
    exists enabled. split; [|assumption]. simpl.
    unfold dict_get_default. rewrite Hentry.
    destruct e as [|kv e]; [congruence|]. simpl truthy. cbn iota.
    unfold py_get, dict_get_default. now rewrite Henabled.
  - intros [Hnd | (d & -> & Hentry)].
    + exists (PDict []). split; [|reflexivity].
      destruct preferences; try reflexivity. discriminate.
    + exists (PDict []). split; [|reflexivity].
      cbv zeta. unfold dict_get_default. now rewrite Hentry.
Qed.

Lemma email_notification_enabled_iff_witness :
  (exists v,
      fst (email_notification_is_enabled PNone
             (PDict [("email:notification", PDict [("enabled", PBool true)])])
             desk_world) = Ok v
      /\ truthy v = true)
  /\ (exists v,
         email_notification_is_enabled PNone (PStr "on") desk_world = (Ok v, desk_world)
         /\ truthy v = false).
Proof.
  split.
  - apply (proj1 (email_notification_enabled_iff PNone
                    (PDict [("email:notification", PDict [("enabled", PBool true)])])
                    desk_world eq_refl)).
    exists [("email:notification", PDict [("enabled", PBool true)])],
           [("enabled", PBool true)], (PBool true).
    repeat split; discriminate.
  - apply (proj2 (email_notification_enabled_iff PNone (PStr "on") desk_world eq_refl)).
    left. reflexivity.
Defined.

(** ** Looking a document up through its session *)

(** C8: [find_one] looks the id up in the Session Store.  When a session
    matches, the user document of the session's user is returned with its
    [_id] overwritten: the [_id] of what is returned is the session id,
    and every other field is the stored document's.  When no session
    matches, the id is taken for a user id and that user's document is
    returned as it is stored, its [_id] being the id asked for.  The
    stores are not changed. *)
Theorem find_one_resolves_session (lookup : pydict) (id : pyval) (w : world) :
  dict_get lookup "_id" = Some id ->
  (forall session user_id doc,
      store_find_one (sessions w) id = PDict session ->
      dict_get session "user" = Some user_id ->
      store_find_one (users w) user_id = PDict doc ->
      exists doc',
        find_one lookup w = (Ok (PDict doc'), w)
        /\ dict_get doc' "_id" = Some id
        /\ dict_get doc "_id" = Some user_id
        /\ (forall k, k <> "_id" -> dict_get doc' k = dict_get doc k)
        /\ dict_keys doc' = dict_keys doc
        /\ doc' = dict_set doc "_id" id)
  /\
  (forall doc,
      store_find_one (sessions w) id = PNone ->
      store_find_one (users w) id = PDict doc ->
      find_one lookup w = (Ok (PDict doc), w)
      /\ dict_get doc "_id" = Some id).
Proof.
  intros Hid. split.
  - intros session user_id doc Hs Hu Hd.
    exists (dict_set doc "_id" id).
    pose proof (store_find_one_id _ _ _ Hd) as Hdoc.
    split; [|split; [|split; [|split; [|split]]]].
    + unfold find_one. run. unfold py_getitem at 1. rewrite Hid, Hs.
      rewrite (store_found_truthy _ _ _ Hs).
      unfold py_getitem. rewrite Hu, Hd, (store_found_truthy _ _ _ Hd).
      now rewrite (store_find_one_id _ _ _ Hs).
    + apply dict_get_set_eq.
    + exact Hdoc.
    + intros k Hk. now apply dict_get_set_ne.
    + apply dict_keys_set_in. apply dict_get_In in Hdoc.
      unfold dict_keys. change "_id" with (fst ("_id", user_id)). now apply in_map.
    + reflexivity.
  - intros doc Hs Hd. split; [|exact (store_find_one_id _ _ _ Hd)].
    unfold find_one. run. unfold py_getitem. rewrite Hid, Hs.
    change (truthy PNone) with false. cbn beta iota.
    rewrite Hd, (store_found_truthy _ _ _ Hd). cbn beta iota.
    unfold py_setitem. now rewrite (dict_set_same _ _ _ (store_find_one_id _ _ _ Hd)).
Qed.

Lemma find_one_resolves_session_witness :
  (exists doc',
      find_one [("_id", PStr "s1")] desk_world = (Ok (PDict doc'), desk_world)
      /\ dict_get doc' "_id" = Some (PStr "s1")
      /\ dict_get user_bob "_id" = Some (PObjectId "b0b")
      /\ dict_get doc' "username" = Some (PStr "bob"))
  /\ find_one [("_id", PObjectId "a11")] desk_world = (Ok (PDict user_ann), desk_world)
  /\ dict_get user_ann "_id" = Some (PObjectId "a11").
Proof.
  split.
  - destruct (proj1 (find_one_resolves_session [("_id", PStr "s1")] (PStr "s1")
                       desk_world eq_refl)
                [("_id", PStr "s1"); ("user", PObjectId "b0b")] (PObjectId "b0b")
                user_bob eq_refl eq_refl eq_refl)
      as (doc' & Hrun & Hid & Hstored & Hrest & _).
    exists doc'. split; [exact Hrun|]. split; [exact Hid|]. split; [exact Hstored|].
    rewrite Hrest by discriminate. reflexivity.
  - apply (proj2 (find_one_resolves_session [("_id", PObjectId "a11")]
                    (PObjectId "a11") desk_world eq_refl));
      reflexivity.
Defined.

(** ** Authorization *)

Section Authorization.
Context `{Surroundings}.

(** With the session found, the answer is the comparison of the two ids
    as [str] prints them. *)
Lemma is_authorized_resolved (rq : flask) (kwargs : pydict) (w : world)
      (id caller : pyval) (session : pydict) :
  dict_get kwargs "user_id" = Some id ->
  is_None id = false ->
  store_find_one (sessions w) id = PDict session ->
  dict_get (g_user rq) "_id" = Some caller ->
  is_authorized rq kwargs w
  = (Ok (PBool (String.eqb (py_str caller)
                           (py_str (dict_get_default session "user" PNone)))), w).
Proof.
  intros Hk Hn Hs Hc. unfold is_authorized, dict_get_default.
  rewrite Hk, Hn. run. rewrite Hs. unfold py_getitem. now rewrite Hc.
Qed.

Lemma is_authorized_without_user_id (rq : flask) (kwargs : pydict) (w : world) :
  is_None (dict_get_default kwargs "user_id" PNone) = true ->
  is_authorized rq kwargs w = (Ok (PBool false), w).
Proof. intros Hn. unfold is_authorized. now rewrite Hn. Qed.

(** C7: when the id names no session, [is_authorized] does not return
    [False]: the look-up gives [None], and asking it for the session's user
    raises [AttributeError]. *)
Theorem is_authorized_unresolved_session_raises (rq : flask) (kwargs : pydict)
        (w : world) (id caller : pyval) :
  dict_get kwargs "user_id" = Some id ->
  is_None id = false ->
  store_find_one (sessions w) id = PNone ->
  dict_get (g_user rq) "_id" = Some caller ->
  is_authorized rq kwargs w = (Raise AttributeError, w).
Proof.
  intros Hk Hn Hs Hc. unfold is_authorized, dict_get_default.
  rewrite Hk, Hn. run. rewrite Hs. unfold py_getitem. now rewrite Hc.
Qed.

End Authorization.

Lemma is_authorized_unresolved_session_raises_witness :
  @is_authorized newsroom bob_on_s1 [("user_id", PStr "s9")] desk_world
  = (Raise AttributeError, desk_world).
Proof.
  apply (@is_authorized_unresolved_session_raises newsroom bob_on_s1
           [("user_id", PStr "s9")] desk_world (PStr "s9") (PObjectId "b0b"));
    reflexivity.
Defined.

(** ** Updating *)

Lemma in_unregistered (registry items : pydict) k :
  In k (unregistered registry items) <->
  In k (dict_keys items) /\ dict_contains registry k = false.
Proof.
  unfold unregistered, dict_keys. rewrite !in_map_iff. split.
  - intros ([k' v] & <- & Hin). apply filter_In in Hin as [Hin Hreg]. simpl in *.
    split; [exists (k', v); auto | now apply negb_true_iff].
  - intros (([k' v] & <- & Hin) & Hreg). exists (k', v). split; [reflexivity|].
    apply filter_In. split; [assumption|]. now apply negb_true_iff.
Qed.

Lemma unregistered_nil (registry items : pydict) :
  unregistered registry items = [] <->
  forall k, In k (dict_keys items) -> dict_contains registry k = true.
Proof.
  split.
  - intros E k Hin. destruct (dict_contains registry k) eqn:C; [reflexivity|].
    assert (In k (unregistered registry items)) as Hk by now apply in_unregistered.
    rewrite E in Hk. destruct Hk.
  - intros Hall. destruct (unregistered registry items) as [|k rest] eqn:E; [reflexivity|].
    assert (In k (unregistered registry items)) as Hk by (rewrite E; now left).
    apply in_unregistered in Hk as [Hin Hreg]. rewrite (Hall k Hin) in Hreg. discriminate.
Qed.

Lemma mapping_or_absent_default (doc : pydict) key :
  mapping_or_absent doc key = true ->
  exists d, dict_get_default doc key (PDict []) = PDict d.
Proof.
  unfold mapping_or_absent, dict_get_default.
  destruct (dict_get doc key) as [[]|]; try discriminate; eauto.
Qed.

Lemma dict_get_default_some (d : pydict) k v default :
  dict_get d k = Some v -> dict_get_default d k default = v.
Proof. unfold dict_get_default. now intros ->. Qed.

Lemma dict_get_default_none (d : pydict) k default :
  dict_get d k = None -> dict_get_default d k default = default.
Proof. unfold dict_get_default. now intros ->. Qed.

Section Updating.
Context `{Surroundings}.

(** C1: an update whose [user_preferences] holds a key that is not in the
    user registry makes [on_update] raise [ValidationError] with the
    message ['Invalid preference: k'], [k] being the first such key of the
    map; nothing is merged: the stores, [updates] and [original] are as
    they were. *)
Theorem on_update_rejects_unregistered_key (rq : flask) (a : update_args)
        (user_prefs : pydict) (bad : string) :
  dict_get (updates a) _user_preferences_key = Some (PDict user_prefs) ->
  In bad (dict_keys user_prefs) ->
  dict_contains default_user_preferences bad = false ->
  mapping_or_absent (original a) _user_preferences_key = true ->
  mapping_or_absent (original a) _session_preferences_key = true ->
  exists k,
    hd_error (unregistered default_user_preferences user_prefs) = Some k
    /\ In k (dict_keys user_prefs)
    /\ dict_contains default_user_preferences k = false
    /\ on_update rq a = (Raise (ValidationError ("Invalid preference: " ++ k)), a).
Proof.
  intros Hup Hin Hbad Hou Hos.
  destruct (unregistered default_user_preferences user_prefs) as [|k rest] eqn:E.
  { assert (In bad (unregistered default_user_preferences user_prefs)) as Hk
      by now apply in_unregistered.
    rewrite E in Hk. destruct Hk. }
  assert (In k (unregistered default_user_preferences user_prefs)) as Hk
    by (rewrite E; now left).
  apply in_unregistered in Hk as [Hkin Hkreg].
  exists k. repeat split; try assumption.
  destruct (mapping_or_absent_default _ _ Hou) as [eu Heu].
  destruct (mapping_or_absent_default _ _ Hos) as [es Hes].
  unfold on_update, merge_preferences, merge_user_preferences. run.
  rewrite Heu, Hes. simpl py_copy.
  cbn beta iota. rewrite (dict_get_default_some _ _ _ PNone Hup).
  change (is_None (PDict user_prefs)) with false. cbn beta iota.
  unfold validate. run. simpl py_items. cbn beta iota. rewrite E. reflexivity.
Qed.

(** *** The blocks of [on_update] *)

Lemma merge_user_preferences_registered (a : update_args) (existing user_prefs : pydict) :
  dict_get (updates a) _user_preferences_key = Some (PDict user_prefs) ->
  unregistered default_user_preferences user_prefs = [] ->
  merge_user_preferences (PDict existing) a
  = (Ok tt, with_updates a (dict_set (updates a) _user_preferences_key
                              (PDict (dict_update existing user_prefs)))).
Proof.
  intros Hup Hreg. unfold merge_user_preferences. run.
  rewrite (dict_get_default_some _ _ _ PNone Hup).
  change (is_None (PDict user_prefs)) with false. cbn beta iota.
  unfold validate. run. simpl py_items. cbn beta iota. rewrite Hreg. reflexivity.
Qed.

Lemma merge_user_preferences_frame (existing : pyval) (a a' : update_args) k :
  merge_user_preferences existing a = (Ok tt, a') ->
  k <> _user_preferences_key ->
  dict_get (updates a') k = dict_get (updates a) k
  /\ store a' = store a /\ original a' = original a.
Proof.
  unfold merge_user_preferences. run. intros E Hk.
  destruct (is_None (dict_get_default (updates a) _user_preferences_key PNone)).
  { injection E as <-. auto. }
  unfold validate in E. run_in E.
  destruct (py_items (dict_get_default (updates a) _user_preferences_key PNone))
    as [items|e]; [|discriminate].
  cbn beta iota in E.
  destruct (unregistered default_user_preferences items); [|discriminate].
  cbn beta iota in E.
  destruct (py_update existing (dict_get_default (updates a) _user_preferences_key PNone))
    as [merged|e]; [|discriminate].
  unfold set_updates in E. run_in E. injection E as <-. simpl.
  split; [|auto]. apply dict_get_set_ne. congruence.
Qed.

(** What a successful session merge did. *)
Lemma merge_session_preferences_inv (rq : flask) (existing : pyval) (a a' : update_args) :
  merge_session_preferences rq existing a = (Ok tt, a') ->
  (dict_get_default (updates a) _session_preferences_key PNone = PNone /\ a' = a)
  \/
  (exists session_prefs d entry,
      dict_get_default (updates a) _session_preferences_key PNone = PDict session_prefs
      /\ unregistered default_session_preferences session_prefs = []
      /\ existing = PDict d
      /\ dict_get d (view_args_id rq) = Some (PDict entry)
      /\ let merged := PDict (dict_update entry session_prefs) in
         a' = {| store := store a;
                 updates := dict_set (updates a) _session_preferences_key
                              (PDict (dict_set d (view_args_id rq) merged));
                 original := write_session_entry (original a) (view_args_id rq) merged |}).
Proof.
  unfold merge_session_preferences. run. intros E.
  destruct (dict_get_default (updates a) _session_preferences_key PNone)
    as [| | | | | |session_prefs] eqn:Hsp; simpl in E;
    try discriminate.
  { left. injection E as <-. auto. }
  right. unfold validate in E. run_in E. simpl in E.
  destruct (unregistered default_session_preferences session_prefs) eqn:Hreg;
    [|discriminate].
  destruct existing as [| | | | | |d]; try discriminate. simpl in E.
  destruct (dict_get d (view_args_id rq)) as [[| | | | | |entry]|] eqn:Hentry;
    try discriminate.
  simpl in E. injection E as <-.
  exists session_prefs, d, entry. repeat split; auto.
Qed.

Lemma stamped_get (m : pydict) k :
  dict_get (stamped m) k =
  if String.eqb _action_key k
  then Some (get_privileged_actions (resolve_privileges m))
  else if String.eqb _privileges_key k then Some (resolve_privileges m)
       else dict_get m k.
Proof.
  unfold stamped, enhance_document_with_user_privileges, set_privileges.
  now rewrite !dict_get_set.
Qed.

Lemma stamped_wf (m : pydict) : dict_wf m -> dict_wf (stamped m).
Proof.
  intros Hm. unfold stamped, enhance_document_with_user_privileges, set_privileges.
  now do 2 apply dict_set_wf.
Qed.

(** Lines 151-152 always succeed: [set_privileges] has just written the
    key they read. *)
Lemma stamp_privileges_run (a : update_args) :
  stamp_privileges a = (Ok tt, with_updates a (stamped (updates a))).
Proof.
  unfold stamp_privileges, set_updates. run.
  unfold py_getitem, enhance_document_with_user_privileges, set_privileges. simpl updates.
  now rewrite dict_get_set_eq.
Qed.

Lemma on_update_inv (rq : flask) (a a' : update_args) :
  on_update rq a = (Ok tt, a') ->
  exists m,
    merge_preferences rq a = (Ok tt, m)
    /\ a' = with_updates m (stamped (updates m)).
Proof.
  unfold on_update. intros E. apply bind_ok_inv in E as ([] & m & Hm & Hs).
  exists m. split; [assumption|]. rewrite stamp_privileges_run in Hs. congruence.
Qed.

Lemma merge_preferences_inv (rq : flask) (a a' : update_args) :
  merge_preferences rq a = (Ok tt, a') ->
  exists eu es a1,
    py_copy (dict_get_default (original a) _user_preferences_key (PDict [])) = Ok eu
    /\ py_copy (dict_get_default (original a) _session_preferences_key (PDict [])) = Ok es
    /\ merge_user_preferences eu a = (Ok tt, a1)
    /\ merge_session_preferences rq es a1 = (Ok tt, a').
Proof.
  unfold merge_preferences. run. intros E.
  destruct (py_copy (dict_get_default (original a) _user_preferences_key (PDict [])))
    as [eu|]; [|discriminate].
  destruct (py_copy (dict_get_default (original a) _session_preferences_key (PDict [])))
    as [es|]; [|discriminate].
  destruct (merge_user_preferences eu a) as [[[]|] a1] eqn:Hu; [|discriminate].
  exists eu, es, a1. auto.
Qed.

Lemma py_copy_dict (v : pyval) (d : pydict) : py_copy v = Ok (PDict d) -> v = PDict d.
Proof. destruct v; simpl; congruence. Qed.

(** C3: when every key of the update's [user_preferences] is registered,
    [on_update] merges the map key by key into the existing user
    preferences: a key of the update takes the update's value, every other
    key keeps the value it had.  With no [session_preferences] in the
    update the call succeeds. *)
Theorem on_update_merges_user_preferences (rq : flask) (a : update_args)
        (user_prefs existing : pydict) :
  dict_get (updates a) _user_preferences_key = Some (PDict user_prefs) ->
  dict_wf user_prefs ->
  (forall k, In k (dict_keys user_prefs) ->
             dict_contains default_user_preferences k = true) ->
  dict_get_default (original a) _user_preferences_key (PDict []) = PDict existing ->
  mapping_or_absent (original a) _session_preferences_key = true ->
  (dict_get_default (updates a) _session_preferences_key PNone = PNone ->
   exists a', on_update rq a = (Ok tt, a'))
  /\
  (forall a',
      on_update rq a = (Ok tt, a') ->
      dict_get (updates a') _user_preferences_key
      = Some (PDict (dict_update existing user_prefs))
      /\ (forall k v, dict_get user_prefs k = Some v ->
                      dict_get (dict_update existing user_prefs) k = Some v)
      /\ (forall k, dict_get user_prefs k = None ->
                    dict_get (dict_update existing user_prefs) k = dict_get existing k)).
Proof.
  intros Hup Hwf Hreg Hex Hos. apply unregistered_nil in Hreg.
  pose proof (merge_user_preferences_registered a existing user_prefs Hup Hreg) as Hu.
  split.
  - intros Hnone. destruct (mapping_or_absent_default _ _ Hos) as [es Hes].
    eexists. unfold on_update, merge_preferences.
    erewrite bind_ok; [apply stamp_privileges_run|].
    run. rewrite Hex, Hes. simpl py_copy. cbn beta iota. rewrite Hu.
    unfold merge_session_preferences. run. unfold with_updates. cbn [updates].
    unfold dict_get_default. rewrite dict_get_set_ne by discriminate.
    unfold dict_get_default in Hnone. rewrite Hnone. reflexivity.
  - intros a' E. apply on_update_inv in E as (m & Hm & ->).
    apply merge_preferences_inv in Hm as (eu & es & a1 & Heu & Hes & Hmu & Hms).
    rewrite Hex in Heu. injection Heu as <-. rewrite Hu in Hmu. injection Hmu as <-.
    split; [|split].
    + unfold with_updates at 1. cbn [updates].
      rewrite stamped_get. simpl String.eqb. cbn iota.
      apply merge_session_preferences_inv in Hms
        as [[_ ->] | (sp & d & entry & _ & _ & _ & _ & ->)];
        unfold with_updates; cbn [updates].
      * apply dict_get_set_eq.
      * rewrite dict_get_set_ne by discriminate. apply dict_get_set_eq.
    + intros k v Hk. now rewrite dict_get_update, Hk.
    + intros k Hk. now rewrite dict_get_update, Hk.
Qed.

(** C4: an [on_update] that merges [session_preferences], made on session
    [A], leaves the map kept under any other session id [B] as it was,
    both in the [session_preferences] it hands on for storing and in
    [original]; the stores are not touched. *)
Theorem on_update_session_isolated (rq : flask) (a a' : update_args)
        (session_prefs : pydict) (B : string) :
  dict_get (updates a) _session_preferences_key = Some (PDict session_prefs) ->
  on_update rq a = (Ok tt, a') ->
  B <> view_args_id rq ->
  exists sp sp_updates sp_original,
    dict_get (original a) _session_preferences_key = Some (PDict sp)
    /\ dict_get (updates a') _session_preferences_key = Some (PDict sp_updates)
    /\ dict_get (original a') _session_preferences_key = Some (PDict sp_original)
    /\ dict_get sp_updates B = dict_get sp B
    /\ dict_get sp_original B = dict_get sp B
    /\ store a' = store a.
Proof.
  intros Hsp E HB. apply on_update_inv in E as (m & Hm & ->).
  apply merge_preferences_inv in Hm as (eu & es & a1 & Heu & Hes & Hmu & Hms).
  destruct (merge_user_preferences_frame eu a a1 _session_preferences_key Hmu)
    as (Hu1 & Hs1 & Ho1); [discriminate|].
  apply merge_session_preferences_inv in Hms
    as [[Hnone _] | (sp' & d & entry & _ & _ & -> & Hentry & ->)].
  { unfold dict_get_default in Hnone. rewrite Hu1, Hsp in Hnone. discriminate. }
  apply py_copy_dict in Hes. rewrite Ho1, Hs1.
  assert (dict_get (original a) _session_preferences_key = Some (PDict d)) as Hd.
  { unfold dict_get_default in Hes.
    destruct (dict_get (original a) _session_preferences_key) as [v|]; [congruence|].
    injection Hes as <-. discriminate. }
  exists d, (dict_set d (view_args_id rq) (PDict (dict_update entry sp'))),
         (dict_set d (view_args_id rq) (PDict (dict_update entry sp'))).
  unfold with_updates. cbn [updates original store].
  unfold write_session_entry. rewrite Hd, stamped_get. simpl String.eqb. cbn iota.
  rewrite !dict_get_set_eq, !(dict_get_set_ne _ _ _ _ (not_eq_sym HB)).
  repeat split; reflexivity.
Qed.

End Updating.

Lemma on_update_rejects_unregistered_key_witness :
  exists k,
    hd_error (unregistered resource_user_preferences
                [("archive:view", PStr "compact"); ("unknown:key", PBool true)])
    = Some k
    /\ In k ["archive:view"; "unknown:key"]
    /\ dict_contains resource_user_preferences k = false
    /\ @on_update newsroom bob_on_s1 patch_unknown
       = (Raise (ValidationError ("Invalid preference: " ++ k)), patch_unknown).
Proof.
  apply (@on_update_rejects_unregistered_key newsroom bob_on_s1 patch_unknown
           [("archive:view", PStr "compact"); ("unknown:key", PBool true)]
           "unknown:key");
    try reflexivity.
  simpl. tauto.
Defined.

Lemma on_update_merges_user_preferences_witness :
  (exists a', @on_update newsroom bob_on_s1 patch_view = (Ok tt, a'))
  /\ (forall a',
         @on_update newsroom bob_on_s1 patch_view = (Ok tt, a') ->
         dict_get (updates a') _user_preferences_key
         = Some (PDict [("feature:preview", PBool false);
                        ("archive:view", PStr "compact")])).
Proof.
  pose proof (@on_update_merges_user_preferences newsroom bob_on_s1 patch_view
                [("archive:view", PStr "compact")]
                [("feature:preview", PBool false); ("archive:view", PStr "mgrid")])
    as T.
  destruct T as [Hruns Hmerged]; try reflexivity.
  - repeat constructor. simpl. tauto.
  - intros k [<-|[]]. reflexivity.
  - split; [now apply Hruns|]. intros a' E. now apply Hmerged.
Defined.

Lemma on_update_session_isolated_witness :
  exists a',
    @on_update newsroom bob_on_s1 patch_desk = (Ok tt, a')
    /\ exists sp sp_updates sp_original,
         dict_get bob_fetched _session_preferences_key = Some (PDict sp)
         /\ dict_get (updates a') _session_preferences_key = Some (PDict sp_updates)
         /\ dict_get (original a') _session_preferences_key = Some (PDict sp_original)
         /\ dict_get sp_updates "s2" = dict_get sp "s2"
         /\ dict_get sp_original "s2" = dict_get sp "s2"
         /\ store a' = desk_world.
Proof.
  eexists. split; [reflexivity|].
  apply (@on_update_session_isolated newsroom bob_on_s1 patch_desk _
           [("desk:last_worked", PStr "world")] "s2");
    [reflexivity | reflexivity | discriminate].
Defined.

(** ** Initializing the preferences of a session *)

Section Initializing.
Context `{Surroundings}.

(** Lines 95-108, computed: what [initial_updates] gives for a user
    document whose legacy preferences and session preferences are
    mappings (or absent). *)
Lemma initial_updates_run (session_id : pyval) (user_doc legacy sp : pydict) (w : world) :
  (dict_contains user_doc _user_preferences_key = false ->
   dict_get_default user_doc _preferences_key (PDict []) = PDict legacy) ->
  dict_get_default user_doc _session_preferences_key (PDict []) = PDict sp ->
  let session_prefs :=
    PDict (dict_setdefault sp (py_str session_id) (PDict (session_seed user_doc))) in
  initial_updates session_id (PDict user_doc) w
  = (Ok (dict_set
           (if dict_contains user_doc _user_preferences_key then []
            else [(_user_preferences_key,
                   PDict (dict_update default_user_preferences legacy))])
           _session_preferences_key session_prefs,
         share_session_preferences (PDict user_doc) session_prefs), w).
Proof.
  intros Hlegacy Hsp. unfold initial_updates, session_seed. run.
  unfold py_contains, py_get, py_setdefault. rewrite Hsp.
  destruct (dict_contains user_doc _user_preferences_key);
    [|rewrite (Hlegacy eq_refl)];
    destruct (eq_str (dict_get_default default_session_preferences "desk:last_worked" PNone) "");
    destruct (truthy (dict_get_default user_doc "desk" PNone)); reflexivity.
Qed.


(** The method, run from a look-up that found the user and a successful
    start: the stamped updates are set on the stored document. *)
Lemma set_session_based_prefs_stores (session_id user_id : pyval) (w : world)
      (user_doc m : pydict) (user_doc' : pyval) :
  store_find_one (users w) user_id = PDict user_doc ->
  initial_updates session_id (PDict user_doc) w = (Ok (m, user_doc'), w) ->
  dict_wf m ->
  dict_get m "_id" = None ->
  exists w',
    set_session_based_prefs session_id user_id w = (Ok tt, w')
    /\ store_find_one (users w') user_id = PDict (dict_update user_doc (stamped m))
    /\ sessions w' = sessions w
    /\ forall k,
         dict_get (dict_update user_doc (stamped m)) k
         = match dict_get (stamped m) k with
           | Some v => Some v
           | None => dict_get user_doc k
           end.
Proof.
  intros Hfind Hinit Hwf Hid.
  exists {| users := store_update (users w) user_id (stamped m); sessions := sessions w |}.
  split; [|split; [|split]].
  - unfold set_session_based_prefs. run. rewrite Hfind, Hinit. cbn [fst snd].
    unfold py_getitem, enhance_document_with_user_privileges, set_privileges.
    rewrite dict_get_set_eq. unfold backend_update. run. reflexivity.
  - cbn [users]. apply store_update_found; auto using stamped_wf.
    rewrite stamped_get. simpl. exact Hid.
  - reflexivity.
  - intros k. apply dict_get_update. now apply stamped_wf.
Qed.


Lemma eq_str_true (v : pyval) (s : string) : eq_str v s = true <-> v = PStr s.
Proof.
  destruct v; simpl; try (split; [discriminate | congruence]).
  rewrite String.eqb_eq. split; congruence.
Qed.

Lemma initial_updates_shape (c : bool) (x y : pyval) :
  let m := dict_set (if c then [] else [(_user_preferences_key, x)])
                    _session_preferences_key y in
  dict_wf m
  /\ dict_get m "_id" = None
  /\ dict_get m _session_preferences_key = Some y
  /\ (c = false -> dict_get m _user_preferences_key = Some x).
Proof.
  destruct c; simpl; repeat split; try reflexivity; try discriminate;
    repeat constructor; simpl; intuition discriminate.
Qed.

(** C5: for a user document without [user_preferences],
    [set_session_based_prefs] stores as [user_preferences] the registry
    defaults updated with the legacy [preferences]: a legacy key has its
    legacy value, any other key has what the registry gives it. *)
Theorem set_session_based_prefs_seeds_user_preferences
        (session_id user_id : pyval) (w : world) (user_doc legacy sp : pydict) :
  store_find_one (users w) user_id = PDict user_doc ->
  dict_get user_doc _user_preferences_key = None ->
  dict_get_default user_doc _preferences_key (PDict []) = PDict legacy ->
  dict_wf legacy ->
  dict_get_default user_doc _session_preferences_key (PDict []) = PDict sp ->
  exists w' stored,
    set_session_based_prefs session_id user_id w = (Ok tt, w')
    /\ store_find_one (users w') user_id = PDict stored
    /\ dict_get stored _user_preferences_key
       = Some (PDict (dict_update default_user_preferences legacy))
    /\ (forall k v, dict_get legacy k = Some v ->
                    dict_get (dict_update default_user_preferences legacy) k = Some v)
    /\ (forall k, dict_get legacy k = None ->
                  dict_get (dict_update default_user_preferences legacy) k
                  = dict_get default_user_preferences k).
Proof.
  intros Hfind Habsent Hlegacy Hwf Hsp.
  assert (dict_contains user_doc _user_preferences_key = false) as Hc
      by (unfold dict_contains; now rewrite Habsent).
  pose proof (initial_updates_run session_id user_doc legacy sp w (fun _ => Hlegacy) Hsp)
    as Hinit. cbv zeta in Hinit. rewrite Hc in Hinit.
  destruct (initial_updates_shape false
              (PDict (dict_update default_user_preferences legacy))
              (PDict (dict_setdefault sp (py_str session_id)
                        (PDict (session_seed user_doc)))))
    as (Hmwf & Hmid & _ & Hmup).
  destruct (set_session_based_prefs_stores session_id user_id w user_doc _ _
              Hfind Hinit Hmwf Hmid) as (w' & Hrun & Hstored & _ & Hget).
  exists w'. eexists. split; [exact Hrun|]. split; [exact Hstored|].
  split; [|split].
  - rewrite Hget, stamped_get. simpl String.eqb. cbn iota.
    now rewrite (Hmup eq_refl).
  - intros k v Hk. now rewrite dict_get_update, Hk.
  - intros k Hk. now rewrite dict_get_update, Hk.
Qed.

(** C6: [set_session_based_prefs] stores a [session_preferences] map in
    which a session id that had no entry gets the session-registry
    defaults, [desk:last_worked] being the user's desk when the registry
    default for it is the empty string and the user document has a desk;
    an entry the session id already had is left as it was, and so is the
    entry of every other session. *)
Theorem set_session_based_prefs_seeds_session
        (session_id user_id : pyval) (w : world) (user_doc legacy sp : pydict) :
  store_find_one (users w) user_id = PDict user_doc ->
  (dict_contains user_doc _user_preferences_key = false ->
   dict_get_default user_doc _preferences_key (PDict []) = PDict legacy) ->
  dict_get_default user_doc _session_preferences_key (PDict []) = PDict sp ->
  let desk := dict_get_default user_doc "desk" PNone in
  exists w' stored sp',
    set_session_based_prefs session_id user_id w = (Ok tt, w')
    /\ store_find_one (users w') user_id = PDict stored
    /\ dict_get stored _session_preferences_key = Some (PDict sp')
    /\ (forall old, dict_get sp (py_str session_id) = Some old -> sp' = sp)
    /\ (forall k, k <> py_str session_id -> dict_get sp' k = dict_get sp k)
    /\ (dict_get sp (py_str session_id) = None ->
        exists seeded,
          dict_get sp' (py_str session_id) = Some (PDict seeded)
          /\ (forall k, k <> "desk:last_worked" ->
                        dict_get seeded k = dict_get default_session_preferences k)
          /\ (dict_get default_session_preferences "desk:last_worked" = Some (PStr "") ->
              truthy desk = true ->
              dict_get seeded "desk:last_worked" = Some desk)
          /\ (dict_get default_session_preferences "desk:last_worked" <> Some (PStr "")
              \/ truthy desk = false ->
              seeded = default_session_preferences)).
Proof.
  intros Hfind Hlegacy Hsp desk.
  pose proof (initial_updates_run session_id user_doc legacy sp w Hlegacy Hsp) as Hinit.
  cbv zeta in Hinit.
  match type of Hinit with
  | _ = (Ok (dict_set (if ?c then _ else [(_, ?x)]) _ ?y, _), _) =>
      destruct (initial_updates_shape c x y) as (Hmwf & Hmid & Hmsp & _)
  end.
  destruct (set_session_based_prefs_stores session_id user_id w user_doc _ _
              Hfind Hinit Hmwf Hmid) as (w' & Hrun & Hstored & _ & Hget).
  exists w'. eexists. eexists. split; [exact Hrun|]. split; [exact Hstored|].
  split; [|split; [|split]].
  - rewrite Hget, stamped_get. simpl String.eqb. cbn iota. now rewrite Hmsp.
  - intros old Hold. unfold dict_setdefault. now rewrite Hold.
  - intros k Hk. apply dict_get_setdefault_ne. congruence.
  - intros Hnew. exists (session_seed user_doc).
    split; [|split; [|split]].
    + rewrite dict_get_setdefault_eq. now rewrite Hnew.
    + intros k Hk. unfold session_seed.
      destruct (_ && _); [|reflexivity]. apply dict_get_set_ne. congruence.
    + intros Hdefault Hdesk. unfold session_seed. fold desk.
      rewrite (dict_get_default_some _ _ _ PNone Hdefault). simpl eq_str.
      rewrite Hdesk. simpl. apply dict_get_set_eq.
    + intros Hcase. unfold session_seed. fold desk.
      destruct (eq_str (dict_get_default default_session_preferences "desk:last_worked" PNone) "")
        eqn:Heq; [|reflexivity].
      destruct (truthy desk) eqn:Hdesk; [|reflexivity].
      exfalso. destruct Hcase as [Hcase|Hcase]; [|discriminate].
      apply Hcase. apply eq_str_true in Heq. unfold dict_get_default in Heq.
      destruct (dict_get default_session_preferences "desk:last_worked");
        [congruence | discriminate].
Qed.

End Initializing.


Lemma set_session_based_prefs_seeds_user_preferences_witness :
  exists w' stored,
    @set_session_based_prefs newsroom (PStr "s3") (PObjectId "a11") desk_world
    = (Ok tt, w')
    /\ store_find_one (users w') (PObjectId "a11") = PDict stored
    /\ dict_get stored _user_preferences_key
       = Some (PDict (dict_update resource_user_preferences
                        [("archive:view", PStr "compact")]))
    /\ (forall k v,
           dict_get [("archive:view", PStr "compact")] k = Some v ->
           dict_get (dict_update resource_user_preferences
                       [("archive:view", PStr "compact")]) k = Some v)
    /\ (forall k,
           dict_get [("archive:view", PStr "compact")] k = None ->
           dict_get (dict_update resource_user_preferences
                       [("archive:view", PStr "compact")]) k
           = dict_get resource_user_preferences k).
Proof.
  apply (@set_session_based_prefs_seeds_user_preferences newsroom
           (PStr "s3") (PObjectId "a11") desk_world user_ann
           [("archive:view", PStr "compact")] []);
    try reflexivity.
  repeat constructor. simpl. tauto.
Defined.

Lemma set_session_based_prefs_seeds_session_witness :
  exists w' stored sp',
    @set_session_based_prefs newsroom (PStr "s3") (PObjectId "a11") desk_world
    = (Ok tt, w')
    /\ store_find_one (users w') (PObjectId "a11") = PDict stored
    /\ dict_get stored _session_preferences_key = Some (PDict sp')
    /\ exists seeded,
         dict_get sp' "s3" = Some (PDict seeded)
         /\ dict_get seeded "desk:last_worked" = Some (PStr "desk42")
         /\ dict_get seeded "pinned:items" = Some (PList []).
Proof.
  destruct (@set_session_based_prefs_seeds_session newsroom
              (PStr "s3") (PObjectId "a11") desk_world user_ann
              [("archive:view", PStr "compact")] [])
    as (w' & stored & sp' & Hrun & Hstored & Hsp & _ & _ & Hnew);
    try reflexivity.
  exists w', stored, sp'. repeat split; try assumption.
  destruct (Hnew eq_refl) as (seeded & Hentry & Hother & Hdesk & _).
  exists seeded. split; [exact Hentry|]. split.
  - apply Hdesk; reflexivity.
  - rewrite Hother by discriminate. reflexivity.
Defined.

(** ** Privileges and actions *)

Section Privileges.
Context `{Surroundings}.

(** What lines 151-152 stamp: the resolver is run on the dictionary of
    updates, as the preference merges left it, not on the user
    document. *)
Lemma on_update_stamps_privileges_of_updates (rq : flask) (a a' : update_args) :
  on_update rq a = (Ok tt, a') ->
  exists m,
    merge_preferences rq a = (Ok tt, m)
    /\ dict_get (updates a') _privileges_key = Some (resolve_privileges (updates m))
    /\ dict_get (updates a') _action_key
       = Some (get_privileged_actions (resolve_privileges (updates m))).
Proof.
  intros E. apply on_update_inv in E as (m & Hm & ->).
  exists m. split; [assumption|]. unfold with_updates. cbn [updates].
  rewrite !stamped_get. split; reflexivity.
Qed.

End Privileges.

(** C2: the privileges stored after an update are not the Privilege
    Resolver's output for the post-update document.  Bob's role grants
    [publish]; he sends session preferences on session [s1]; [on_update]
    and then [update] succeed, and the document the User Store holds
    afterwards has an empty [active_privileges], where the resolver gives
    [publish] for that document: line 151 hands the resolver the
    dictionary of updates, which carries no role, where
    [enhance_document_with_user_privileges(user_doc)] takes the user
    document. *)
Lemma privileges_not_of_the_stored_document :
  exists a' w' stored,
    @on_update newsroom bob_on_s1 patch_desk = (Ok tt, a')
    /\ update (PStr "s1") (updates a') (original a') (store a')
       = (Ok (PDict stored), w')
    /\ store_find_one (users w') (PObjectId "b0b") = PDict stored
    /\ dict_get stored _privileges_key = Some (PDict [])
    /\ @resolve_privileges newsroom stored = PDict [("publish", PInt 1)]
    /\ dict_get stored _privileges_key <> Some (@resolve_privileges newsroom stored).
Proof.
  do 3 eexists.
  split; [cbv; reflexivity|]. split; [cbv; reflexivity|].
  split; [cbv; reflexivity|]. split; [reflexivity|]. split; [reflexivity|].
  discriminate.
Qed.

(** The same at line 110: a session opened for bob stores an empty
    [active_privileges], the user document being in scope but the updates
    being what the resolver is given. *)
Lemma privileges_at_initialization_ignore_the_role :
  exists w' stored,
    @set_session_based_prefs newsroom (PStr "s7") (PObjectId "b0b") desk_world
    = (Ok tt, w')
    /\ store_find_one (users w') (PObjectId "b0b") = PDict stored
    /\ dict_get stored _privileges_key = Some (PDict [])
    /\ @resolve_privileges newsroom stored = PDict [("publish", PInt 1)].
Proof.
  do 2 eexists.
  split; [cbv; reflexivity|]. split; [cbv; reflexivity|].
  split; reflexivity.
Qed.

(** * Further properties of the service *)

Lemma store_find_one_cases (coll : list pydict) (id : pyval) :
  store_find_one coll id = PNone \/ exists doc, store_find_one coll id = PDict doc.
Proof.
  unfold store_find_one. destruct (find (has_id id) coll); eauto.
Qed.

(** ** Authorization, with the session found *)

Section AuthorizationResolved.
Context `{Surroundings}.

(** X1: for a session the Session Store holds, [is_authorized] answers
    with a boolean and leaves the stores alone; the answer is [True]
    exactly when [str] prints the caller's [_id] and the session's [user]
    the same, so a caller who is the session's user is authorized, and so
    is a caller whose [_id] is an ObjectId when the session keeps the user
    as the same hexadecimal string. *)
Theorem is_authorized_compares_printed_ids (rq : flask) (kwargs : pydict)
        (w : world) (id caller : pyval) (session : pydict) :
  dict_get kwargs "user_id" = Some id ->
  is_None id = false ->
  store_find_one (sessions w) id = PDict session ->
  dict_get (g_user rq) "_id" = Some caller ->
  let owner := dict_get_default session "user" PNone in
  (exists b, is_authorized rq kwargs w = (Ok (PBool b), w))
  /\ (is_authorized rq kwargs w = (Ok (PBool true), w)
      <-> py_str caller = py_str owner)
  /\ (caller = owner -> is_authorized rq kwargs w = (Ok (PBool true), w))
  /\ (forall hex, caller = PObjectId hex -> owner = PStr hex ->
                  is_authorized rq kwargs w = (Ok (PBool true), w)).
Proof.
  intros Hk Hn Hs Hc owner.
  pose proof (is_authorized_resolved rq kwargs w id caller session Hk Hn Hs Hc) as E.
  fold owner in E. rewrite E.
  assert ((Ok (PBool (String.eqb (py_str caller) (py_str owner))), w)
          = (Ok (PBool true), w) <-> py_str caller = py_str owner) as Hiff.
  { rewrite <- String.eqb_eq. split.
    - intros E1. now injection E1.
    - now intros ->. }
  split; [eauto|]. split; [exact Hiff|]. split.
  - intros ->. now apply Hiff.
  - intros hex -> ->. now apply Hiff.
Qed.

End AuthorizationResolved.

Lemma is_authorized_compares_printed_ids_witness :
  @is_authorized newsroom bob_on_s1 [("user_id", PStr "s1")] desk_world
  = (Ok (PBool true), desk_world).
Proof.
  apply (@is_authorized_compares_printed_ids newsroom bob_on_s1
           [("user_id", PStr "s1")] desk_world (PStr "s1") (PObjectId "b0b")
           [("_id", PStr "s1"); ("user", PObjectId "b0b")]);
    reflexivity.
Defined.

(** ** What [find_one] gives back *)

(** [find_one] as a function of the stores: it reads them and leaves them
    as they are. *)
Lemma find_one_run (lookup : pydict) (id : pyval) (w : world) :
  dict_get lookup "_id" = Some id ->
  find_one lookup w =
  (let session := store_find_one (sessions w) id in
   match (if truthy session then py_getitem session "user" else Ok id) with
   | Ok _id =>
       let doc := store_find_one (users w) _id in
       if truthy doc then
         match (if truthy session then py_getitem session "_id" else Ok _id) with
         | Ok new_id => py_setitem doc "_id" new_id
         | Raise e => Raise e
         end
       else Ok doc
   | Raise e => Raise e
   end, w).
Proof.
  intros Hid. unfold find_one. run. unfold py_getitem at 1. rewrite Hid. cbv zeta.
  destruct (truthy (store_find_one (sessions w) id)).
  - destruct (py_getitem (store_find_one (sessions w) id) "user") as [user_id|e];
      [|reflexivity].
    destruct (truthy (store_find_one (users w) user_id)); [|reflexivity].
    destruct (py_getitem (store_find_one (sessions w) id) "_id"); reflexivity.
  - destruct (truthy (store_find_one (users w) id)); reflexivity.
Qed.

(** X3: [find_one] never changes the stores, and a document it returns
    always carries the id it was asked for as its [_id], whether that id
    named a session or a user. *)
Theorem find_one_returns_the_requested_id (lookup : pydict) (id : pyval) (w : world) :
  dict_get lookup "_id" = Some id ->
  snd (find_one lookup w) = w
  /\ forall doc, fst (find_one lookup w) = Ok (PDict doc) ->
                 dict_get doc "_id" = Some id.
Proof.
  intros Hid. rewrite (find_one_run lookup id w Hid). cbv zeta.
  split; [reflexivity|]. cbn [fst]. intros doc'.
  destruct (store_find_one_cases (sessions w) id) as [Hs | [session Hs]]; rewrite Hs.
  - change (truthy PNone) with false. cbn iota.
    destruct (store_find_one_cases (users w) id) as [Hd | [doc Hd]]; rewrite Hd.
    + discriminate.
    + rewrite (store_found_truthy _ _ _ Hd). simpl.
      intros E. injection E as <-. apply dict_get_set_eq.
  - rewrite (store_found_truthy _ _ _ Hs). unfold py_getitem.
    destruct (dict_get session "user") as [user_id|]; [|discriminate].
    destruct (store_find_one_cases (users w) user_id) as [Hd | [doc Hd]]; rewrite Hd.
    + discriminate.
    + rewrite (store_found_truthy _ _ _ Hd), (store_find_one_id _ _ _ Hs). simpl.
      intros E. injection E as <-. apply dict_get_set_eq.
Qed.

Lemma find_one_returns_the_requested_id_witness :
  snd (find_one [("_id", PStr "s2")] desk_world) = desk_world
  /\ forall doc, fst (find_one [("_id", PStr "s2")] desk_world) = Ok (PDict doc) ->
                 dict_get doc "_id" = Some (PStr "s2").
Proof.
  apply (find_one_returns_the_requested_id [("_id", PStr "s2")] (PStr "s2")
           desk_world eq_refl).
Defined.

(** X4: when no user document is found, [find_one] returns [None] and
    does not raise: for an id that names neither a session nor a user, and
    for a session whose user is not in the User Store.  A session stored
    without a [user] field makes it raise [KeyError]. *)
Theorem find_one_without_user_document (lookup : pydict) (id : pyval) (w : world) :
  dict_get lookup "_id" = Some id ->
  (store_find_one (sessions w) id = PNone ->
   store_find_one (users w) id = PNone ->
   find_one lookup w = (Ok PNone, w))
  /\ (forall session user_id,
         store_find_one (sessions w) id = PDict session ->
         dict_get session "user" = Some user_id ->
         store_find_one (users w) user_id = PNone ->
         find_one lookup w = (Ok PNone, w))
  /\ (forall session,
         store_find_one (sessions w) id = PDict session ->
         dict_get session "user" = None ->
         find_one lookup w = (Raise (KeyError "user"), w)).
Proof.
  intros Hid. rewrite (find_one_run lookup id w Hid). cbv zeta.
  split; [|split].
  - intros Hs Hd. rewrite Hs. change (truthy PNone) with false. cbn iota.
    now rewrite Hd.
  - intros session user_id Hs Hu Hd. rewrite Hs, (store_found_truthy _ _ _ Hs).
    unfold py_getitem. rewrite Hu. now rewrite Hd.
  - intros session Hs Hu. rewrite Hs, (store_found_truthy _ _ _ Hs).
    unfold py_getitem. now rewrite Hu.
Qed.

Lemma find_one_without_user_document_witness :
  find_one [("_id", PStr "nobody")] desk_world = (Ok PNone, desk_world)
  /\ find_one [("_id", PStr "s4")] orphan_world = (Ok PNone, orphan_world)
  /\ find_one [("_id", PStr "s5")] orphan_world = (Raise (KeyError "user"), orphan_world).
Proof.
  split; [|split].
  - apply (proj1 (find_one_without_user_document [("_id", PStr "nobody")]
                    (PStr "nobody") desk_world eq_refl)); reflexivity.
  - apply (proj1 (proj2 (find_one_without_user_document [("_id", PStr "s4")]
                           (PStr "s4") orphan_world eq_refl))
             [("_id", PStr "s4"); ("user", PObjectId "9a9")] (PObjectId "9a9"));
      reflexivity.
  - apply (proj2 (proj2 (find_one_without_user_document [("_id", PStr "s5")]
                           (PStr "s5") orphan_world eq_refl))
             [("_id", PStr "s5")]);
      reflexivity.
Defined.

(** ** The ways through [on_update] *)

Section UpdatePaths.
Context `{Surroundings}.

Lemma merge_user_preferences_raise (existing : pyval) (a a' : update_args) (e : exn) :
  merge_user_preferences existing a = (Raise e, a') -> a' = a.
Proof.
  unfold merge_user_preferences. run.
  destruct (is_None (dict_get_default (updates a) _user_preferences_key PNone));
    [discriminate|].
  unfold validate. run.
  destruct (py_items (dict_get_default (updates a) _user_preferences_key PNone))
    as [items|]; cbn beta iota; [|congruence].
  destruct (unregistered default_user_preferences items); cbn beta iota; [|congruence].
  destruct (py_update existing (dict_get_default (updates a) _user_preferences_key PNone));
    [|congruence].
  unfold set_updates. run. discriminate.
Qed.

Lemma merge_session_preferences_raise (rq : flask) (existing : pyval)
      (a a' : update_args) (e : exn) :
  merge_session_preferences rq existing a = (Raise e, a') -> a' = a.
Proof.
  unfold merge_session_preferences. run.
  destruct (is_None (dict_get_default (updates a) _session_preferences_key PNone));
    [discriminate|].
  unfold validate. run.
  destruct (py_items (dict_get_default (updates a) _session_preferences_key PNone))
    as [items|]; cbn beta iota; [|congruence].
  destruct (unregistered default_session_preferences items); cbn beta iota; [|congruence].
  destruct (py_getitem existing (view_args_id rq)) as [entry|]; [|congruence].
  destruct (py_update entry (dict_get_default (updates a) _session_preferences_key PNone));
    [|congruence].
  unfold set_original, set_updates. run. discriminate.
Qed.

Lemma merge_user_preferences_passes (existing : pydict) (a : update_args) :
  registered_or_absent default_user_preferences (updates a) _user_preferences_key = true ->
  exists a1, merge_user_preferences (PDict existing) a = (Ok tt, a1).
Proof.
  unfold registered_or_absent, merge_user_preferences. run.
  destruct (dict_get_default (updates a) _user_preferences_key PNone)
    as [| | | | | |prefs]; try discriminate.
  - intros _. change (is_None PNone) with true. cbn beta iota. eauto.
  - change (is_None (PDict prefs)) with false. cbn beta iota.
    unfold validate. run. simpl py_items. cbn beta iota.
    destruct (unregistered default_user_preferences prefs); [|discriminate].
    intros _. cbn beta iota. simpl py_update. cbn iota. unfold set_updates. run. eauto.
Qed.

(** Past the two copies and the user merge, [merge_preferences] is the
    session merge. *)
Lemma merge_preferences_session (rq : flask) (a a1 : update_args) (eu es : pyval) :
  py_copy (dict_get_default (original a) _user_preferences_key (PDict [])) = Ok eu ->
  py_copy (dict_get_default (original a) _session_preferences_key (PDict [])) = Ok es ->
  merge_user_preferences eu a = (Ok tt, a1) ->
  merge_preferences rq a = merge_session_preferences rq es a1.
Proof.
  intros Heu Hes Hu. unfold merge_preferences. run. now rewrite Heu, Hes, Hu.
Qed.

Lemma merge_session_preferences_unregistered (rq : flask) (existing : pyval)
      (a : update_args) (session_prefs : pydict) (k : string) (rest : list string) :
  dict_get (updates a) _session_preferences_key = Some (PDict session_prefs) ->
  unregistered default_session_preferences session_prefs = k :: rest ->
  merge_session_preferences rq existing a
  = (Raise (ValidationError ("Invalid preference: " ++ k)), a).
Proof.
  intros Hsp Hreg. unfold merge_session_preferences. run.
  rewrite (dict_get_default_some _ _ _ PNone Hsp).
  change (is_None (PDict session_prefs)) with false. cbn beta iota.
  unfold validate. run. simpl py_items. cbn beta iota. now rewrite Hreg.
Qed.

Lemma merge_session_preferences_no_entry (rq : flask) (a : update_args)
      (session_prefs d : pydict) :
  dict_get (updates a) _session_preferences_key = Some (PDict session_prefs) ->
  unregistered default_session_preferences session_prefs = [] ->
  dict_get d (view_args_id rq) = None ->
  merge_session_preferences rq (PDict d) a = (Raise (KeyError (view_args_id rq)), a).
Proof.
  intros Hsp Hreg Hentry. unfold merge_session_preferences. run.
  rewrite (dict_get_default_some _ _ _ PNone Hsp).
  change (is_None (PDict session_prefs)) with false. cbn beta iota.
  unfold validate. run. simpl py_items. cbn beta iota. rewrite Hreg. cbn beta iota.
  unfold py_getitem. now rewrite Hentry.
Qed.

Lemma merge_session_preferences_entry (rq : flask) (a : update_args)
      (session_prefs d entry : pydict) :
  dict_get (updates a) _session_preferences_key = Some (PDict session_prefs) ->
  unregistered default_session_preferences session_prefs = [] ->
  dict_get d (view_args_id rq) = Some (PDict entry) ->
  merge_session_preferences rq (PDict d) a
  = (Ok tt,
     {| store := store a;
        updates := dict_set (updates a) _session_preferences_key
                     (PDict (dict_set d (view_args_id rq)
                               (PDict (dict_update entry session_prefs))));
        original := write_session_entry (original a) (view_args_id rq)
                      (PDict (dict_update entry session_prefs)) |}).
Proof.
  intros Hsp Hreg Hentry. unfold merge_session_preferences. run.
  rewrite (dict_get_default_some _ _ _ PNone Hsp).
  change (is_None (PDict session_prefs)) with false. cbn beta iota.
  unfold validate. run. simpl py_items. cbn beta iota. rewrite Hreg. cbn beta iota.
  unfold py_getitem. rewrite Hentry. reflexivity.
Qed.

(** X5: whatever [on_update] ends in, it leaves the stores alone and
    changes no field of [original] other than [session_preferences]; when
    it raises, [original] is exactly as it was and [updates] differs at
    most in [user_preferences]. *)
Theorem on_update_leaves_the_rest (rq : flask) (a a' : update_args) (r : result unit) :
  on_update rq a = (r, a') ->
  store a' = store a
  /\ (forall k, k <> _session_preferences_key ->
                dict_get (original a') k = dict_get (original a) k)
  /\ (forall e, r = Raise e ->
                original a' = original a
                /\ forall k, k <> _user_preferences_key ->
                             dict_get (updates a') k = dict_get (updates a) k).
Proof.
  unfold on_update, bind at 1.
  destruct (merge_preferences rq a) as [[[]|e0] m] eqn:Hm.
  - rewrite stamp_privileges_run. intros E. injection E as <- <-.
    apply merge_preferences_inv in Hm as (eu & es & a1 & _ & _ & Hmu & Hms).
    destruct (merge_user_preferences_frame eu a a1 _privileges_key Hmu)
      as (_ & Hs1 & Ho1); [discriminate|].
    unfold with_updates. cbn [store original].
    apply merge_session_preferences_inv in Hms
      as [[_ ->] | (sp & d & entry & _ & _ & _ & _ & ->)]; cbn [store original].
    + rewrite Hs1, Ho1. repeat split; auto. discriminate.
    + rewrite Hs1, Ho1. split; [reflexivity|]. split; [|discriminate].
      intros k Hk. unfold write_session_entry.
      destruct (dict_get (original a) _session_preferences_key) as [[]|]; try reflexivity.
      apply dict_get_set_ne. congruence.
  - intros E. injection E as <- <-.
    assert (store m = store a /\ original m = original a
            /\ forall k, k <> _user_preferences_key ->
                         dict_get (updates m) k = dict_get (updates a) k) as (Hs & Ho & Hu).
    { revert Hm. unfold merge_preferences. run.
      destruct (py_copy (dict_get_default (original a) _user_preferences_key (PDict [])))
        as [eu|]; [|intros E; injection E as _ <-; auto].
      destruct (py_copy (dict_get_default (original a) _session_preferences_key (PDict [])))
        as [es|]; [|intros E; injection E as _ <-; auto].
      destruct (merge_user_preferences eu a) as [[[]|] a1] eqn:Hmu.
      - intros Hms. apply merge_session_preferences_raise in Hms as ->.
        split; [|split].
        + now destruct (merge_user_preferences_frame eu a a1 _privileges_key Hmu)
            as (_ & ? & _); [discriminate|].
        + now destruct (merge_user_preferences_frame eu a a1 _privileges_key Hmu)
            as (_ & _ & ?); [discriminate|].
        + intros k Hk.
          now destruct (merge_user_preferences_frame eu a a1 k Hmu) as (? & _ & _).
      - intros E. injection E as _ <-.
        apply merge_user_preferences_raise in Hmu as ->. auto. }
    rewrite Hs, Ho. repeat split; auto.
Qed.


Lemma merge_user_preferences_none (existing : pyval) (a : update_args) :
  dict_get_default (updates a) _user_preferences_key PNone = PNone ->
  merge_user_preferences existing a = (Ok tt, a).
Proof. intros Hn. unfold merge_user_preferences. run. now rewrite Hn. Qed.

(** The state an update is in when its user preferences have passed and
    the session merge begins. *)
Lemma on_update_reaches_session_merge (rq : flask) (a : update_args) :
  registered_or_absent default_user_preferences (updates a) _user_preferences_key = true ->
  mapping_or_absent (original a) _user_preferences_key = true ->
  mapping_or_absent (original a) _session_preferences_key = true ->
  exists d a1,
    dict_get_default (original a) _session_preferences_key (PDict []) = PDict d
    /\ merge_preferences rq a = merge_session_preferences rq (PDict d) a1
    /\ store a1 = store a
    /\ original a1 = original a
    /\ forall k, k <> _user_preferences_key ->
                 dict_get (updates a1) k = dict_get (updates a) k.
Proof.
  intros Hreg Hou Hos.
  destruct (mapping_or_absent_default _ _ Hou) as [e He].
  destruct (mapping_or_absent_default _ _ Hos) as [d Hd].
  destruct (merge_user_preferences_passes e a Hreg) as [a1 Hu].
  exists d, a1. split; [exact Hd|]. split.
  - apply (merge_preferences_session rq a a1 (PDict e) (PDict d)); [| |exact Hu].
    + now rewrite He.
    + now rewrite Hd.
  - destruct (merge_user_preferences_frame (PDict e) a a1 _privileges_key Hu)
      as (_ & Hs & Ho); [discriminate|].
    split; [exact Hs|]. split; [exact Ho|].
    intros k Hk. now destruct (merge_user_preferences_frame (PDict e) a a1 k Hu).
Qed.

(** X6: session preferences with a key that is not in the session registry
    make [on_update] raise [ValidationError] naming the first such key,
    before the session's entry is looked for; the stores and [original]
    are as they were, and the update's [session_preferences] is as the
    caller sent it. *)
Theorem on_update_rejects_unregistered_session_key (rq : flask) (a : update_args)
        (session_prefs : pydict) (bad : string) :
  registered_or_absent default_user_preferences (updates a) _user_preferences_key = true ->
  dict_get (updates a) _session_preferences_key = Some (PDict session_prefs) ->
  In bad (dict_keys session_prefs) ->
  dict_contains default_session_preferences bad = false ->
  mapping_or_absent (original a) _user_preferences_key = true ->
  mapping_or_absent (original a) _session_preferences_key = true ->
  exists k a',
    hd_error (unregistered default_session_preferences session_prefs) = Some k
    /\ dict_contains default_session_preferences k = false
    /\ on_update rq a = (Raise (ValidationError ("Invalid preference: " ++ k)), a')
    /\ store a' = store a
    /\ original a' = original a
    /\ dict_get (updates a') _session_preferences_key = Some (PDict session_prefs).
Proof.
  intros Hreg Hsp Hin Hbad Hou Hos.
  destruct (unregistered default_session_preferences session_prefs) as [|k rest] eqn:E.
  { assert (In bad (unregistered default_session_preferences session_prefs)) as Hk
      by now apply in_unregistered.
    rewrite E in Hk. destruct Hk. }
  assert (In k (unregistered default_session_preferences session_prefs)) as Hk
    by (rewrite E; now left).
  apply in_unregistered in Hk as [_ Hkreg].
  destruct (on_update_reaches_session_merge rq a Hreg Hou Hos)
    as (d & a1 & _ & Hm & Hs & Ho & Hu).
  assert (dict_get (updates a1) _session_preferences_key = Some (PDict session_prefs))
    as Hsp1 by (rewrite Hu; [exact Hsp | discriminate]).
  exists k, a1. repeat split; auto.
  unfold on_update. apply bind_raise. rewrite Hm.
  exact (merge_session_preferences_unregistered rq (PDict d) a1 session_prefs k rest Hsp1 E).
Qed.

(** X7: [on_update] does not open a session: session preferences sent on a
    session id for which [original] has no entry, all their keys being
    registered, end in [KeyError] for that session id; the stores and
    [original] are as they were. *)
Theorem on_update_needs_the_session_entry (rq : flask) (a : update_args)
        (session_prefs d : pydict) :
  registered_or_absent default_user_preferences (updates a) _user_preferences_key = true ->
  dict_get (updates a) _session_preferences_key = Some (PDict session_prefs) ->
  unregistered default_session_preferences session_prefs = [] ->
  mapping_or_absent (original a) _user_preferences_key = true ->
  dict_get_default (original a) _session_preferences_key (PDict []) = PDict d ->
  dict_get d (view_args_id rq) = None ->
  exists a',
    on_update rq a = (Raise (KeyError (view_args_id rq)), a')
    /\ store a' = store a
    /\ original a' = original a.
Proof.
  intros Hreg Hsp Hall Hou Hd Hentry.
  assert (mapping_or_absent (original a) _session_preferences_key = true) as Hos.
  { unfold mapping_or_absent. unfold dict_get_default in Hd.
    destruct (dict_get (original a) _session_preferences_key) as [[]|];
      congruence. }
  destruct (on_update_reaches_session_merge rq a Hreg Hou Hos)
    as (d' & a1 & Hd' & Hm & Hs & Ho & Hu).
  assert (d' = d) as -> by congruence.
  assert (dict_get (updates a1) _session_preferences_key = Some (PDict session_prefs))
    as Hsp1 by (rewrite Hu; [exact Hsp | discriminate]).
  exists a1. repeat split; auto.
  unfold on_update. apply bind_raise. rewrite Hm.
  exact (merge_session_preferences_no_entry rq a1 session_prefs d Hsp1 Hall Hentry).
Qed.

(** X8: session preferences of registered keys, sent on a session that has
    an entry, make [on_update] succeed; the entry becomes the old entry
    updated key by key with what was sent, in the [session_preferences]
    handed on for storing and, the copy being shallow, in [original] as
    well. *)
Theorem on_update_merges_session_entry (rq : flask) (a : update_args)
        (session_prefs d entry : pydict) :
  registered_or_absent default_user_preferences (updates a) _user_preferences_key = true ->
  dict_get (updates a) _session_preferences_key = Some (PDict session_prefs) ->
  dict_wf session_prefs ->
  unregistered default_session_preferences session_prefs = [] ->
  mapping_or_absent (original a) _user_preferences_key = true ->
  dict_get (original a) _session_preferences_key = Some (PDict d) ->
  dict_get d (view_args_id rq) = Some (PDict entry) ->
  let merged := dict_update entry session_prefs in
  exists a',
    on_update rq a = (Ok tt, a')
    /\ dict_get (updates a') _session_preferences_key
       = Some (PDict (dict_set d (view_args_id rq) (PDict merged)))
    /\ dict_get (original a') _session_preferences_key
       = Some (PDict (dict_set d (view_args_id rq) (PDict merged)))
    /\ (forall k v, dict_get session_prefs k = Some v -> dict_get merged k = Some v)
    /\ (forall k, dict_get session_prefs k = None ->
                  dict_get merged k = dict_get entry k).
Proof.
  intros Hreg Hsp Hwf Hall Hou Hd Hentry merged.
  assert (mapping_or_absent (original a) _session_preferences_key = true) as Hos
      by (unfold mapping_or_absent; now rewrite Hd).
  destruct (on_update_reaches_session_merge rq a Hreg Hou Hos)
    as (d' & a1 & Hd' & Hm & Hs & Ho & Hu).
  rewrite (dict_get_default_some _ _ _ (PDict []) Hd) in Hd'. injection Hd' as <-.
  assert (dict_get (updates a1) _session_preferences_key = Some (PDict session_prefs))
    as Hsp1 by (rewrite Hu; [exact Hsp | discriminate]).
  rewrite (merge_session_preferences_entry rq a1 session_prefs d entry Hsp1 Hall Hentry)
    in Hm.
  eexists. split; [|split; [|split; [|split]]].
  - unfold on_update. erewrite bind_ok; [apply stamp_privileges_run | exact Hm].
  - unfold with_updates. cbn [updates]. rewrite stamped_get. simpl String.eqb. cbn iota.
    apply dict_get_set_eq.
  - unfold with_updates. cbn [original]. rewrite Ho. unfold write_session_entry.
    rewrite Hd. apply dict_get_set_eq.
  - intros k v Hk. unfold merged. now rewrite dict_get_update, Hk.
  - intros k Hk. unfold merged. now rewrite dict_get_update, Hk.
Qed.

(** X9: a successful [on_update] hands every other field of the update on
    as it came: only [user_preferences], [session_preferences],
    [active_privileges] and [allowed_actions] can differ, and a preference
    map that is absent or [None] is left as it is. *)
Theorem on_update_passes_other_fields (rq : flask) (a a' : update_args) :
  on_update rq a = (Ok tt, a') ->
  (forall k,
      k <> _user_preferences_key -> k <> _session_preferences_key ->
      k <> _privileges_key -> k <> _action_key ->
      dict_get (updates a') k = dict_get (updates a) k)
  /\ (dict_get_default (updates a) _user_preferences_key PNone = PNone ->
      dict_get (updates a') _user_preferences_key
      = dict_get (updates a) _user_preferences_key)
  /\ (dict_get_default (updates a) _session_preferences_key PNone = PNone ->
      dict_get (updates a') _session_preferences_key
      = dict_get (updates a) _session_preferences_key).
Proof.
  intros E. apply on_update_inv in E as (m & Hm & ->).
  apply merge_preferences_inv in Hm as (eu & es & a1 & _ & _ & Hmu & Hms).
  unfold with_updates. cbn [updates].
  assert (forall k, k <> _session_preferences_key ->
                    dict_get (updates m) k = dict_get (updates a1) k) as Hsession.
  { intros k Hk. apply merge_session_preferences_inv in Hms
      as [[_ ->] | (sp & d & entry & _ & _ & _ & _ & ->)]; [reflexivity|].
    cbn [updates]. apply dict_get_set_ne. congruence. }
  split; [|split].
  - intros k Hu Hs Hp Ha. rewrite stamped_get.
    destruct (String.eqb_spec _action_key k); [congruence|].
    destruct (String.eqb_spec _privileges_key k); [congruence|].
    rewrite Hsession by assumption.
    now destruct (merge_user_preferences_frame eu a a1 k Hmu Hu).
  - intros Hnone. rewrite stamped_get. simpl String.eqb. cbn iota.
    rewrite Hsession by discriminate.
    rewrite (merge_user_preferences_none eu a Hnone) in Hmu. now injection Hmu as <-.
  - intros Hnone. rewrite stamped_get. simpl String.eqb. cbn iota.
    destruct (merge_user_preferences_frame eu a a1 _session_preferences_key Hmu)
      as (Hu1 & _ & _); [discriminate|].
    apply merge_session_preferences_inv in Hms
      as [[_ ->] | (sp & d & entry & Hsp & _)]; [exact Hu1|].
    unfold dict_get_default in Hsp, Hnone. rewrite Hu1 in Hsp.
    rewrite Hnone in Hsp. discriminate.
Qed.

End UpdatePaths.

Lemma on_update_leaves_the_rest_witness :
  store (snd (@on_update newsroom bob_on_s1 patch_bogus)) = desk_world
  /\ original (snd (@on_update newsroom bob_on_s1 patch_bogus)) = bob_fetched.
Proof.
  destruct (@on_update_leaves_the_rest newsroom bob_on_s1 patch_bogus
              (snd (@on_update newsroom bob_on_s1 patch_bogus))
              (fst (@on_update newsroom bob_on_s1 patch_bogus))
              (surjective_pairing _)) as (Hs & _ & Hr).
  split; [exact Hs|].
  exact (proj1 (Hr (ValidationError "Invalid preference: bogus") eq_refl)).
Defined.

Lemma on_update_rejects_unregistered_session_key_witness :
  exists k a',
    hd_error (unregistered resource_session_preferences
                [("desk:last_worked", PStr "world"); ("bogus", PInt 1)]) = Some k
    /\ dict_contains resource_session_preferences k = false
    /\ @on_update newsroom bob_on_s1 patch_bogus
       = (Raise (ValidationError ("Invalid preference: " ++ k)), a')
    /\ store a' = desk_world
    /\ original a' = bob_fetched
    /\ dict_get (updates a') _session_preferences_key
       = Some (PDict [("desk:last_worked", PStr "world"); ("bogus", PInt 1)]).
Proof.
  apply (@on_update_rejects_unregistered_session_key newsroom bob_on_s1 patch_bogus
           [("desk:last_worked", PStr "world"); ("bogus", PInt 1)] "bogus");
    try reflexivity.
  simpl. tauto.
Defined.

Lemma on_update_needs_the_session_entry_witness :
  exists a',
    @on_update newsroom bob_on_s9 patch_desk = (Raise (KeyError "s9"), a')
    /\ store a' = desk_world
    /\ original a' = bob_fetched.
Proof.
  apply (@on_update_needs_the_session_entry newsroom bob_on_s9 patch_desk
           [("desk:last_worked", PStr "world")]
           [("s1", PDict [("desk:last_worked", PStr "sports"); ("pinned:items", PList [])]);
            ("s2", PDict [("desk:last_worked", PStr "politics")])]);
    reflexivity.
Defined.

Lemma on_update_merges_session_entry_witness :
  exists a',
    @on_update newsroom bob_on_s1 patch_desk = (Ok tt, a')
    /\ dict_get (original a') _session_preferences_key
       = Some (PDict [("s1", PDict [("desk:last_worked", PStr "world");
                                    ("pinned:items", PList [])]);
                      ("s2", PDict [("desk:last_worked", PStr "politics")])]).
Proof.
  destruct (@on_update_merges_session_entry newsroom bob_on_s1 patch_desk
              [("desk:last_worked", PStr "world")]
              [("s1", PDict [("desk:last_worked", PStr "sports"); ("pinned:items", PList [])]);
               ("s2", PDict [("desk:last_worked", PStr "politics")])]
              [("desk:last_worked", PStr "sports"); ("pinned:items", PList [])])
    as (a' & Hrun & _ & Horiginal & _); try reflexivity.
  - repeat constructor. simpl. tauto.
  - exists a'. split; [exact Hrun | exact Horiginal].
Defined.

Lemma on_update_passes_other_fields_witness :
  dict_get (updates (snd (@on_update newsroom bob_on_s1 patch_plain))) "_updated"
  = Some (PStr "2015-03-01")
  /\ dict_get (updates (snd (@on_update newsroom bob_on_s1 patch_plain)))
       _user_preferences_key = Some PNone.
Proof.
  destruct (@on_update_passes_other_fields newsroom bob_on_s1 patch_plain
              (snd (@on_update newsroom bob_on_s1 patch_plain)) eq_refl)
    as (Hother & Huser & _).
  split.
  - apply Hother; discriminate.
  - now apply Huser.
Defined.

(** ** Storing an update *)

Lemma pyval_eqb_refl (a : pyval) : pyval_eqb a a = true.
Proof.
  induction a as [| x | x | x | x | xs IH | xs IH] using pyval_nested_ind; simpl.
  - reflexivity.
  - apply Bool.eqb_reflx.
  - apply Z.eqb_refl.
  - apply String.eqb_refl.
  - apply String.eqb_refl.
  - induction IH as [|x xs Hx _ IHxs]; [reflexivity|]. now rewrite Hx, IHxs.
  - induction IH as [|[k x] xs Hx _ IHxs]; [reflexivity|].
    simpl in Hx. now rewrite String.eqb_refl, Hx, IHxs.
Qed.

Lemma has_id_unique (id id' : pyval) (doc : pydict) :
  has_id id doc = true -> id' <> id -> has_id id' doc = false.
Proof.
  unfold has_id. destruct (dict_get doc "_id") as [v|]; [|discriminate].
  intros E Hne. apply pyval_eqb_eq in E as ->.
  destruct (pyval_eqb id id') eqn:E'; [|reflexivity].
  apply pyval_eqb_eq in E'. congruence.
Qed.

Lemma has_id_update (id : pyval) (doc changes : pydict) :
  dict_wf changes -> dict_get changes "_id" = None ->
  has_id id (dict_update doc changes) = has_id id doc.
Proof.
  intros Hwf Hid. unfold has_id. now rewrite dict_get_update, Hid.
Qed.

(** An update of one stored document leaves the look-up of every other id
    as it was. *)
Lemma store_update_other (coll : list pydict) (id id' : pyval) (changes : pydict) :
  dict_wf changes -> dict_get changes "_id" = None -> id' <> id ->
  store_find_one (store_update coll id changes) id' = store_find_one coll id'.
Proof.
  intros Hwf Hid Hne. unfold store_find_one.
  induction coll as [|d coll IH]; simpl; [reflexivity|].
  destruct (has_id id d) eqn:E; simpl.
  - now rewrite (has_id_update id' d changes Hwf Hid), (has_id_unique id id' d E Hne).
  - destruct (has_id id' d); [reflexivity | exact IH].
Qed.

(** [update], past the reading of [original['_id']]. *)
Lemma update_run (id : pyval) (changes original : pydict) (w : world)
      (session_id : pyval) :
  dict_get original "_id" = Some session_id ->
  update id changes original w =
  match py_getitem (store_find_one (sessions w) session_id) "user" with
  | Ok user_id =>
      match py_getitem (store_find_one (users w) user_id) "_id" with
      | Ok original_id =>
          backend_update original_id changes (store_find_one (users w) user_id) w
      | Raise e => (Raise e, w)
      end
  | Raise e => (Raise e, w)
  end.
Proof.
  intros Hid. unfold update. run. unfold py_getitem at 1. now rewrite Hid.
Qed.

(** X10: [update] stores nothing unless it can go from [original['_id']]
    to a session and from the session to its user: without a session for
    that id it raises [TypeError], for a session without a [user] field
    [KeyError], for a user that is not in the store [TypeError], and the
    stores are as they were. *)
Theorem update_needs_session_and_user (id : pyval) (changes original : pydict)
        (w : world) (session_id : pyval) :
  dict_get original "_id" = Some session_id ->
  (store_find_one (sessions w) session_id = PNone ->
   update id changes original w = (Raise TypeError, w))
  /\ (forall session,
         store_find_one (sessions w) session_id = PDict session ->
         dict_get session "user" = None ->
         update id changes original w = (Raise (KeyError "user"), w))
  /\ (forall session user_id,
         store_find_one (sessions w) session_id = PDict session ->
         dict_get session "user" = Some user_id ->
         store_find_one (users w) user_id = PNone ->
         update id changes original w = (Raise TypeError, w)).
Proof.
  intros Hid. rewrite (update_run id changes original w session_id Hid).
  split; [|split].
  - now intros ->.
  - intros session -> Hu. unfold py_getitem. now rewrite Hu.
  - intros session user_id -> Hu Hd. unfold py_getitem. rewrite Hu. cbn beta iota.
    now rewrite Hd.
Qed.

Lemma update_needs_session_and_user_witness :
  update (PStr "s5") [("desk", PStr "desk7")] [("_id", PStr "s5")] orphan_world
  = (Raise (KeyError "user"), orphan_world)
  /\ update (PStr "s4") [("desk", PStr "desk7")] [("_id", PStr "s4")] orphan_world
     = (Raise TypeError, orphan_world).
Proof.
  split.
  - apply (proj1 (proj2 (update_needs_session_and_user (PStr "s5")
                           [("desk", PStr "desk7")] [("_id", PStr "s5")] orphan_world
                           (PStr "s5") eq_refl))
             [("_id", PStr "s5")]);
      reflexivity.
  - apply (proj2 (proj2 (update_needs_session_and_user (PStr "s4")
                           [("desk", PStr "desk7")] [("_id", PStr "s4")] orphan_world
                           (PStr "s4") eq_refl))
             [("_id", PStr "s4"); ("user", PObjectId "9a9")] (PObjectId "9a9"));
      reflexivity.
Defined.

(** X11: a document [find_one] gave for an id that names no session (the
    id was taken for a user id) cannot be stored back: [update] called
    with that document as [original] raises [TypeError] and leaves the
    stores as they were. *)
Theorem update_after_user_id_lookup_raises (lookup : pydict) (id other : pyval)
        (doc changes : pydict) (w : world) :
  dict_get lookup "_id" = Some id ->
  store_find_one (sessions w) id = PNone ->
  find_one lookup w = (Ok (PDict doc), w) ->
  update other changes doc w = (Raise TypeError, w).
Proof.
  intros Hid Hs Hfind.
  assert (dict_get doc "_id" = Some id) as Hdoc.
  { rewrite (find_one_run lookup id w Hid) in Hfind. cbv zeta in Hfind.
    rewrite Hs in Hfind. change (truthy PNone) with false in Hfind. cbn iota in Hfind.
    destruct (store_find_one_cases (users w) id) as [Hd | [d Hd]]; rewrite Hd in Hfind.
    - discriminate.
    - rewrite (store_found_truthy _ _ _ Hd) in Hfind. simpl in Hfind.
      injection Hfind as <-. apply dict_get_set_eq. }
  rewrite (update_run other changes doc w id Hdoc). now rewrite Hs.
Qed.

Lemma update_after_user_id_lookup_raises_witness :
  update (PObjectId "a11") [("desk", PStr "desk7")] user_ann desk_world
  = (Raise TypeError, desk_world).
Proof.
  apply (update_after_user_id_lookup_raises [("_id", PObjectId "a11")]
           (PObjectId "a11") (PObjectId "a11") user_ann [("desk", PStr "desk7")]
           desk_world);
    reflexivity.
Defined.

(** X12: [update] writes to the user who owns the session that
    [original['_id']] names, whatever [id] it is called with and whatever
    else [original] holds: the changes are set on that user's stored
    document, which is returned; every other user's document and the
    Session Store are as they were. *)
Theorem update_writes_to_the_session_owner (id : pyval) (changes original : pydict)
        (w : world) (session_id user_id : pyval) (session stored : pydict) :
  dict_get original "_id" = Some session_id ->
  store_find_one (sessions w) session_id = PDict session ->
  dict_get session "user" = Some user_id ->
  store_find_one (users w) user_id = PDict stored ->
  dict_wf changes ->
  dict_get changes "_id" = None ->
  exists w',
    update id changes original w = (Ok (PDict (dict_update stored changes)), w')
    /\ store_find_one (users w') user_id = PDict (dict_update stored changes)
    /\ (forall k, dict_get (dict_update stored changes) k
                  = match dict_get changes k with
                    | Some v => Some v
                    | None => dict_get stored k
                    end)
    /\ (forall other, other <> user_id ->
                      store_find_one (users w') other = store_find_one (users w) other)
    /\ sessions w' = sessions w.
Proof.
  intros Hid Hs Hu Hd Hwf Hcid.
  exists {| users := store_update (users w) user_id changes; sessions := sessions w |}.
  assert (store_find_one (store_update (users w) user_id changes) user_id
          = PDict (dict_update stored changes)) as Hfound
      by now apply store_update_found.
  split; [|split; [|split; [|split]]].
  - rewrite (update_run id changes original w session_id Hid).
    unfold py_getitem. rewrite Hs, Hu, Hd, (store_find_one_id _ _ _ Hd).
    unfold backend_update. run. now rewrite Hfound.
  - exact Hfound.
  - intros k. now apply dict_get_update.
  - intros other Hne. cbn [users]. now apply store_update_other.
  - reflexivity.
Qed.

Lemma update_writes_to_the_session_owner_witness :
  exists w',
    update (PStr "anything") [("desk", PStr "desk7")] bob_fetched desk_world
    = (Ok (PDict (dict_update user_bob [("desk", PStr "desk7")])), w')
    /\ store_find_one (users w') (PObjectId "a11") = PDict user_ann
    /\ sessions w' = sessions desk_world.
Proof.
  destruct (update_writes_to_the_session_owner (PStr "anything")
              [("desk", PStr "desk7")] bob_fetched desk_world (PStr "s1")
              (PObjectId "b0b") [("_id", PStr "s1"); ("user", PObjectId "b0b")] user_bob)
    as (w' & Hrun & _ & _ & Hother & Hsessions); try reflexivity.
  - repeat constructor. simpl. tauto.
  - exists w'. split; [exact Hrun|]. split; [|exact Hsessions].
    rewrite Hother by discriminate. reflexivity.
Defined.

(** ** Filling in the defaults *)

Lemma dict_set_app_in (x1 x2 : pydict) k v :
  In k (dict_keys x1) -> dict_set (x1 ++ x2) k v = dict_set x1 k v ++ x2.
Proof.
  induction x1 as [|[k' v'] x1 IH]; simpl; [tauto|].
  destruct (String.eqb_spec k' k) as [->|Hne]; [reflexivity|].
  intros [Hk|Hk]; [contradiction|]. now rewrite IH.
Qed.

Lemma dict_set_app_notin (x1 x2 : pydict) k v :
  ~ In k (dict_keys x1) -> dict_set (x1 ++ x2) k v = x1 ++ dict_set x2 k v.
Proof.
  induction x1 as [|[k' v'] x1 IH]; simpl; [reflexivity|].
  destruct (String.eqb_spec k' k) as [->|Hne]; [tauto|].
  intros Hk. rewrite IH; tauto.
Qed.

(** Assigning into a dictionary that begins with the keys [keys] gives
    one that does. *)
Lemma dict_set_prefix (keys : list string) (x1 x2 : pydict) k v :
  dict_keys x1 = keys ->
  exists y1 y2, dict_set (x1 ++ x2) k v = y1 ++ y2 /\ dict_keys y1 = keys.
Proof.
  intros Hkeys. destruct (in_dec string_dec k (dict_keys x1)) as [Hin|Hout].
  - exists (dict_set x1 k v), x2. split; [now apply dict_set_app_in|].
    now rewrite dict_keys_set_in.
  - exists x1, (dict_set x2 k v). split; [now apply dict_set_app_notin | assumption].
Qed.

Lemma dict_update_prefix (keys : list string) (other x1 x2 : pydict) :
  dict_keys x1 = keys ->
  exists y1 y2, dict_update (x1 ++ x2) other = y1 ++ y2 /\ dict_keys y1 = keys.
Proof.
  revert x1 x2. unfold dict_update.
  induction other as [|[k v] other IH]; intros x1 x2 Hkeys; simpl.
  - eauto.
  - destruct (dict_set_prefix keys x1 x2 k v Hkeys) as (y1 & y2 & -> & Hy). eauto.
Qed.

Lemma dict_update_cons_notin (d other : pydict) k v :
  ~ In k (dict_keys other) ->
  dict_update ((k, v) :: d) other = (k, v) :: dict_update d other.
Proof.
  unfold dict_update. revert d.
  induction other as [|[k' v'] other IH]; intros d Hk; simpl; [reflexivity|].
  simpl in Hk. destruct (String.eqb_spec k k') as [->|Hne]; [tauto|].
  apply IH. tauto.
Qed.

(** Updating a dictionary with one of the same keys in the same order
    gives the latter. *)
Lemma dict_update_same_keys (x d : pydict) :
  dict_keys d = dict_keys x -> dict_wf x -> dict_update d x = x.
Proof.
  unfold dict_wf. revert d.
  induction x as [|[k v] x IH]; intros [|[k' v'] d] Hkeys Hwf; try discriminate.
  - reflexivity.
  - simpl in Hkeys. injection Hkeys as -> Hkeys. simpl in Hwf.
    inversion Hwf as [|? ? Hnotin Hrest]; subst.
    change (dict_update ((k, v') :: d) ((k, v) :: x))
      with (dict_update (dict_set ((k, v') :: d) k v) x).
    simpl. rewrite String.eqb_refl.
    rewrite dict_update_cons_notin by assumption. f_equal. now apply IH.
Qed.

Lemma dict_update_fresh (x2 x1 : pydict) :
  dict_wf (x1 ++ x2) -> dict_update x1 x2 = x1 ++ x2.
Proof.
  unfold dict_wf, dict_update, dict_keys. revert x1.
  induction x2 as [|[k v] x2 IH]; intros x1 Hwf; simpl.
  - now rewrite app_nil_r.
  - assert (~ In k (dict_keys x1)) as Hk.
    { rewrite map_app in Hwf. simpl in Hwf. apply NoDup_remove_2 in Hwf.
      intros Hin. apply Hwf. apply in_or_app. now left. }
    replace (dict_set x1 k v) with (x1 ++ [(k, v)]).
    + rewrite IH; rewrite <- app_assoc; [reflexivity | exact Hwf].
    + clear -Hk. induction x1 as [|[k' v'] x1 IH]; simpl; [reflexivity|].
      simpl in Hk. destruct (String.eqb_spec k' k) as [->|Hne]; [tauto|].
      rewrite <- IH; tauto.
Qed.

(** A dictionary that begins with the keys of [d] absorbs [d]. *)
Lemma dict_update_absorbed (d x1 x2 : pydict) :
  dict_keys x1 = dict_keys d -> dict_wf (x1 ++ x2) -> dict_update d (x1 ++ x2) = x1 ++ x2.
Proof.
  intros Hkeys Hwf. unfold dict_update. rewrite fold_left_app.
  fold (dict_update d x1). rewrite dict_update_same_keys.
  - now apply dict_update_fresh.
  - now symmetry.
  - unfold dict_wf, dict_keys in *. rewrite map_app in Hwf.
    now apply NoDup_app_remove_r in Hwf.
Qed.

Section FillingDefaults.
Context `{Surroundings}.

Lemma enhance_document_with_default_prefs_run (user_doc session_doc legacy sprefs : pydict) :
  dict_get_default user_doc _preferences_key (PDict []) = PDict legacy ->
  dict_get_default session_doc _session_preferences_key (PDict []) = PDict sprefs ->
  enhance_document_with_default_prefs (PDict user_doc) session_doc
  = (Ok tt,
     dict_set
       (dict_set session_doc _user_preferences_key
          (PDict (dict_update default_user_preferences legacy)))
       _session_preferences_key
       (PDict (filled_session_preferences user_doc sprefs))).
Proof.
  intros Hlegacy Hsprefs.
  unfold enhance_document_with_default_prefs, filled_session_preferences. run.
  unfold py_get at 1. rewrite Hlegacy. unfold py_update at 1. cbn beta iota.
  assert (dict_get_default
            (dict_set session_doc _user_preferences_key
               (PDict (dict_update default_user_preferences legacy)))
            _session_preferences_key (PDict []) = PDict sprefs) as ->.
  { unfold dict_get_default in *. now rewrite dict_get_set_ne by discriminate. }
  unfold py_update, py_get, py_setitem. cbn beta iota.
  destruct (eq_str (dict_get_default (dict_update default_session_preferences sprefs)
                      "desk:last_worked" PNone) ""); [|reflexivity].
  cbn beta iota. destruct (truthy (dict_get_default user_doc "desk" PNone)); reflexivity.
Qed.

(** X13: [enhance_document_with_default_prefs] replaces the document's
    [user_preferences] by the user registry's defaults updated with the
    user's legacy [preferences], whatever [user_preferences] the document
    held, and fills its [session_preferences] up with the session
    registry's defaults: apart from [desk:last_worked], a key the document
    had keeps its value and any other registered key gets its default.
    Every registered key is present afterwards, and no other field of the
    document changes. *)
Theorem enhance_document_fills_defaults (user_doc session_doc legacy sprefs : pydict) :
  dict_get_default user_doc _preferences_key (PDict []) = PDict legacy ->
  dict_wf legacy ->
  dict_get_default session_doc _session_preferences_key (PDict []) = PDict sprefs ->
  dict_wf sprefs ->
  exists doc' up sp,
    enhance_document_with_default_prefs (PDict user_doc) session_doc = (Ok tt, doc')
    /\ dict_get doc' _user_preferences_key = Some (PDict up)
    /\ dict_get doc' _session_preferences_key = Some (PDict sp)
    /\ (forall k, dict_get up k
                  = match dict_get legacy k with
                    | Some v => Some v
                    | None => dict_get default_user_preferences k
                    end)
    /\ (forall k, k <> "desk:last_worked" ->
                  dict_get sp k
                  = match dict_get sprefs k with
                    | Some v => Some v
                    | None => dict_get default_session_preferences k
                    end)
    /\ (forall k, dict_contains default_user_preferences k = true ->
                  dict_contains up k = true)
    /\ (forall k, dict_contains default_session_preferences k = true ->
                  dict_contains sp k = true)
    /\ (forall k, k <> _user_preferences_key -> k <> _session_preferences_key ->
                  dict_get doc' k = dict_get session_doc k).
Proof.
  intros Hlegacy Hlwf Hsprefs Hswf.
  do 3 eexists. split; [exact (enhance_document_with_default_prefs_run _ _ _ _ Hlegacy Hsprefs)|].
  assert (forall k, k <> "desk:last_worked" ->
                    dict_get (filled_session_preferences user_doc sprefs) k
                    = dict_get (dict_update default_session_preferences sprefs) k) as Hfill.
  { intros k Hk. unfold filled_session_preferences.
    destruct (_ && _); [|reflexivity]. apply dict_get_set_ne. congruence. }
  split; [|split; [|split; [|split; [|split; [|split]]]]].
  - rewrite dict_get_set_ne by discriminate. apply dict_get_set_eq.
  - apply dict_get_set_eq.
  - intros k. now apply dict_get_update.
  - intros k Hk. rewrite Hfill by assumption. now apply dict_get_update.
  - intros k. unfold dict_contains. rewrite dict_get_update by assumption.
    destruct (dict_get legacy k); [reflexivity | tauto].
  - intros k. unfold dict_contains.
    destruct (String.eqb_spec k "desk:last_worked") as [->|Hk].
    + unfold filled_session_preferences.
      destruct (_ && _); [now rewrite dict_get_set_eq|].
      rewrite dict_get_update by assumption.
      destruct (dict_get sprefs "desk:last_worked"); [reflexivity | tauto].
    + rewrite Hfill, dict_get_update by assumption.
      destruct (dict_get sprefs k); [reflexivity | tauto].
  - intros k Hu Hs. rewrite !dict_get_set_ne by congruence. reflexivity.
Qed.

(** X14: in the session preferences [enhance_document_with_default_prefs]
    writes, [desk:last_worked] is the user's desk exactly when the value
    it would otherwise have (the document's own, else the registry
    default) equals the empty string and the user has a desk; a session's
    own non-empty [desk:last_worked] is kept even when the user has a
    desk. *)
Theorem enhance_document_desk_last_worked (user_doc session_doc legacy sprefs : pydict) :
  dict_get_default user_doc _preferences_key (PDict []) = PDict legacy ->
  dict_get_default session_doc _session_preferences_key (PDict []) = PDict sprefs ->
  dict_wf sprefs ->
  let desk := dict_get_default user_doc "desk" PNone in
  let current :=
    match dict_get sprefs "desk:last_worked" with
    | Some v => Some v
    | None => dict_get default_session_preferences "desk:last_worked"
    end in
  exists doc' sp,
    enhance_document_with_default_prefs (PDict user_doc) session_doc = (Ok tt, doc')
    /\ dict_get doc' _session_preferences_key = Some (PDict sp)
    /\ (current = Some (PStr "") -> truthy desk = true ->
        dict_get sp "desk:last_worked" = Some desk)
    /\ (current <> Some (PStr "") -> dict_get sp "desk:last_worked" = current)
    /\ (truthy desk = false -> dict_get sp "desk:last_worked" = current).
Proof.
  intros Hlegacy Hsprefs Hswf desk current.
  do 2 eexists.
  split; [exact (enhance_document_with_default_prefs_run _ _ _ _ Hlegacy Hsprefs)|].
  split; [apply dict_get_set_eq|].
  assert (dict_get (dict_update default_session_preferences sprefs) "desk:last_worked"
          = current) as Hcur by now apply dict_get_update.
  assert (eq_str (dict_get_default (dict_update default_session_preferences sprefs)
                    "desk:last_worked" PNone) "" = true
          <-> current = Some (PStr "")) as Hcond.
  { unfold dict_get_default. rewrite Hcur, eq_str_true.
    destruct current; split; congruence. }
  unfold filled_session_preferences. subst desk. split; [|split].
  - intros Hc Hd. rewrite (proj2 Hcond Hc), Hd. simpl. apply dict_get_set_eq.
  - intros Hne.
    destruct (eq_str (dict_get_default (dict_update default_session_preferences sprefs)
                        "desk:last_worked" PNone) "") eqn:E.
    + exfalso. now apply Hne, Hcond.
    + exact Hcur.
  - intros Hd. rewrite Hd, andb_false_r. exact Hcur.
Qed.

(** X15: [enhance_document_with_default_prefs] is idempotent: run again on
    the document it has filled, with the same user document, it leaves
    the document exactly as it is. *)
Theorem enhance_document_idempotent (user_doc session_doc legacy sprefs doc' : pydict) :
  dict_get_default user_doc _preferences_key (PDict []) = PDict legacy ->
  dict_get_default session_doc _session_preferences_key (PDict []) = PDict sprefs ->
  dict_wf sprefs ->
  dict_wf default_session_preferences ->
  enhance_document_with_default_prefs (PDict user_doc) session_doc = (Ok tt, doc') ->
  enhance_document_with_default_prefs (PDict user_doc) doc' = (Ok tt, doc').
Proof.
  intros Hlegacy Hsprefs Hswf Hdwf Hrun.
  rewrite (enhance_document_with_default_prefs_run _ _ _ _ Hlegacy Hsprefs) in Hrun.
  injection Hrun as <-.
  set (up := PDict (dict_update default_user_preferences legacy)).
  set (filled := filled_session_preferences user_doc sprefs).
  set (doc1 := dict_set (dict_set session_doc _user_preferences_key up)
                        _session_preferences_key (PDict filled)).
  assert (dict_get doc1 _user_preferences_key = Some up) as Hup.
  { unfold doc1. rewrite dict_get_set_ne by discriminate. apply dict_get_set_eq. }
  assert (dict_get doc1 _session_preferences_key = Some (PDict filled)) as Hsp
      by apply dict_get_set_eq.
  rewrite (enhance_document_with_default_prefs_run user_doc doc1 legacy filled Hlegacy
             (dict_get_default_some _ _ _ _ Hsp)).
  fold up. rewrite (dict_set_same _ _ _ Hup).
  assert (filled_session_preferences user_doc filled = filled) as ->;
    [|now rewrite (dict_set_same _ _ _ Hsp)].
  (* the filled preferences begin with the registry's keys *)
  assert (exists x1 x2, filled = x1 ++ x2
                        /\ dict_keys x1 = dict_keys default_session_preferences
                        /\ dict_wf filled) as (x1 & x2 & Hsplit & Hkeys & Hfwf).
  { unfold filled, filled_session_preferences.
    destruct (dict_update_prefix (dict_keys default_session_preferences) sprefs
                default_session_preferences [] eq_refl) as (y1 & y2 & Hy & Hyk).
    rewrite app_nil_r in Hy.
    destruct (_ && _).
    - rewrite Hy.
      destruct (dict_set_prefix (dict_keys default_session_preferences) y1 y2
                  "desk:last_worked" (dict_get_default user_doc "desk" PNone) Hyk)
        as (z1 & z2 & Hz & Hzk).
      exists z1, z2. split; [exact Hz|]. split; [exact Hzk|].
      rewrite <- Hy. apply dict_set_wf. now apply dict_update_wf.
    - exists y1, y2. split; [exact Hy|]. split; [exact Hyk|]. now apply dict_update_wf. }
  assert (dict_update default_session_preferences filled = filled) as Habsorb.
  { rewrite Hsplit. apply dict_update_absorbed; [exact Hkeys | now rewrite <- Hsplit]. }
  unfold filled_session_preferences at 1. rewrite Habsorb.
  destruct (eq_str (dict_get_default filled "desk:last_worked" PNone) "") eqn:E;
    [|reflexivity].
  destruct (truthy (dict_get_default user_doc "desk" PNone)) eqn:Hdesk; [|reflexivity].
  exfalso. apply eq_str_true in E. revert E.
  unfold filled at 1, filled_session_preferences.
  destruct (eq_str (dict_get_default (dict_update default_session_preferences sprefs)
                      "desk:last_worked" PNone) "") eqn:E0.
  - rewrite Hdesk. simpl. unfold dict_get_default at 1. rewrite dict_get_set_eq.
    intros E. rewrite E in Hdesk. discriminate.
  - simpl. intros E. rewrite E in E0. discriminate.
Qed.

End FillingDefaults.

Lemma enhance_document_fills_defaults_witness :
  exists doc' up sp,
    @enhance_document_with_default_prefs newsroom (PDict user_ann) session_view
    = (Ok tt, doc')
    /\ dict_get doc' _user_preferences_key = Some (PDict up)
    /\ dict_get doc' _session_preferences_key = Some (PDict sp)
    /\ dict_get up "archive:view" = Some (PStr "compact")
    /\ dict_get up "stale" = None
    /\ dict_get sp "pinned:items" = Some (PList []).
Proof.
  destruct (@enhance_document_fills_defaults newsroom user_ann session_view
              [("archive:view", PStr "compact")] [("desk:last_worked", PStr "")])
    as (doc' & up & sp & Hrun & Hup & Hsp & Huser & Hsession & _);
    try reflexivity; try (repeat constructor; simpl; tauto).
  exists doc', up, sp. split; [exact Hrun|]. split; [exact Hup|]. split; [exact Hsp|].
  split; [|split].
  - now rewrite Huser.
  - now rewrite Huser.
  - rewrite Hsession by discriminate. reflexivity.
Defined.

Lemma enhance_document_desk_last_worked_witness :
  exists doc' sp,
    @enhance_document_with_default_prefs newsroom (PDict user_ann) session_view
    = (Ok tt, doc')
    /\ dict_get doc' _session_preferences_key = Some (PDict sp)
    /\ dict_get sp "desk:last_worked" = Some (PStr "desk42").
Proof.
  destruct (@enhance_document_desk_last_worked newsroom user_ann session_view
              [("archive:view", PStr "compact")] [("desk:last_worked", PStr "")])
    as (doc' & sp & Hrun & Hsp & Hdesk & _);
    try reflexivity; try (repeat constructor; simpl; tauto).
  exists doc', sp. split; [exact Hrun|]. split; [exact Hsp|].
  apply Hdesk; reflexivity.
Defined.

Lemma enhance_document_idempotent_witness :
  @enhance_document_with_default_prefs newsroom (PDict user_ann)
    (snd (@enhance_document_with_default_prefs newsroom (PDict user_ann) session_view))
  = (Ok tt,
     snd (@enhance_document_with_default_prefs newsroom (PDict user_ann) session_view)).
Proof.
  apply (@enhance_document_idempotent newsroom user_ann session_view
           [("archive:view", PStr "compact")] [("desk:last_worked", PStr "")]);
    try reflexivity; repeat constructor; simpl; intuition discriminate.
Defined.

(** ** More on initializing a session *)

Section InitializingMore.
Context `{Surroundings}.

(** Lines 95-108 read the stores and leave them as they are. *)
Lemma initial_updates_world (session_id user_doc : pyval) (w w' : world)
      (r : result (pydict * pyval)) :
  initial_updates session_id user_doc w = (r, w') -> w' = w.
Proof.
  unfold initial_updates. run.
  destruct (py_contains user_doc _user_preferences_key) as [present|];
    [|intros E; now injection E].
  destruct (negb present); cbn beta iota.
  - destruct (py_get user_doc _preferences_key (PDict [])) as [legacy|];
      [|intros E; now injection E].
    destruct (py_update (PDict default_user_preferences) legacy);
      [|intros E; now injection E].
    destruct (py_get user_doc _session_preferences_key (PDict [])) as [sp|];
      [|intros E; now injection E].
    destruct (eq_str (dict_get_default default_session_preferences "desk:last_worked" PNone) "").
    + destruct (py_get user_doc "desk" PNone) as [desk|]; [|intros E; now injection E].
      destruct (truthy desk); cbn beta iota;
        destruct (py_setdefault sp (py_str session_id) _); intros E; now injection E.
    + cbn beta iota.
      destruct (py_setdefault sp (py_str session_id) _); intros E; now injection E.
  - destruct (py_get user_doc _session_preferences_key (PDict [])) as [sp|];
      [|intros E; now injection E].
    destruct (eq_str (dict_get_default default_session_preferences "desk:last_worked" PNone) "").
    + destruct (py_get user_doc "desk" PNone) as [desk|]; [|intros E; now injection E].
      destruct (truthy desk); cbn beta iota;
        destruct (py_setdefault sp (py_str session_id) _); intros E; now injection E.
    + cbn beta iota.
      destruct (py_setdefault sp (py_str session_id) _); intros E; now injection E.
Qed.

(** X16: [set_session_based_prefs] writes nothing when it raises, whatever
    the exception: the stores are as they were.  For a user id that is not
    in the User Store it raises [TypeError]. *)
Theorem set_session_based_prefs_raises_cleanly (session_id user_id : pyval) (w : world) :
  (forall e w', set_session_based_prefs session_id user_id w = (Raise e, w') -> w' = w)
  /\ (store_find_one (users w) user_id = PNone ->
      set_session_based_prefs session_id user_id w = (Raise TypeError, w)).
Proof.
  split.
  - intros e w'. unfold set_session_based_prefs. run.
    destruct (initial_updates session_id (store_find_one (users w) user_id) w)
      as [[p|e0] w1] eqn:Hinit.
    + unfold py_getitem, enhance_document_with_user_privileges, set_privileges.
      rewrite dict_get_set_eq. unfold backend_update. run. discriminate.
    + intros E. injection E as _ <-. now apply initial_updates_world in Hinit.
  - intros Hfind. unfold set_session_based_prefs. run. now rewrite Hfind.
Qed.

(** The world a successful [set_session_based_prefs] leaves. *)
Lemma set_session_based_prefs_world (session_id user_id : pyval) (w : world)
      (user_doc legacy sp : pydict) :
  store_find_one (users w) user_id = PDict user_doc ->
  (dict_contains user_doc _user_preferences_key = false ->
   dict_get_default user_doc _preferences_key (PDict []) = PDict legacy) ->
  dict_get_default user_doc _session_preferences_key (PDict []) = PDict sp ->
  exists m,
    set_session_based_prefs session_id user_id w
    = (Ok tt, {| users := store_update (users w) user_id (stamped m);
                 sessions := sessions w |})
    /\ dict_wf m
    /\ dict_get m "_id" = None
    /\ dict_get m _session_preferences_key
       = Some (PDict (dict_setdefault sp (py_str session_id)
                        (PDict (session_seed user_doc))))
    /\ (dict_contains user_doc _user_preferences_key = true ->
        dict_get m _user_preferences_key = None)
    /\ (forall k, k <> _user_preferences_key -> k <> _session_preferences_key ->
                  dict_get m k = None).
Proof.
  intros Hfind Hlegacy Hsp.
  pose proof (initial_updates_run session_id user_doc legacy sp w Hlegacy Hsp) as Hinit.
  cbv zeta in Hinit.
  match type of Hinit with
  | _ = (Ok (?m, _), _) => exists m
  end.
  split; [|split; [|split; [|split; [|split]]]].
  - unfold set_session_based_prefs. run. rewrite Hfind, Hinit. cbn [fst snd].
    unfold py_getitem, enhance_document_with_user_privileges, set_privileges.
    rewrite dict_get_set_eq. unfold backend_update. run. reflexivity.
  - destruct (dict_contains user_doc _user_preferences_key);
      repeat constructor; simpl; intuition discriminate.
  - destruct (dict_contains user_doc _user_preferences_key); reflexivity.
  - destruct (dict_contains user_doc _user_preferences_key); reflexivity.
  - intros ->. reflexivity.
  - intros k Hu Hs. rewrite dict_get_set.
    destruct (String.eqb_spec _session_preferences_key k); [congruence|].
    destruct (dict_contains user_doc _user_preferences_key); cbn [dict_get];
      [reflexivity|].
    destruct (String.eqb_spec _user_preferences_key k); [congruence | reflexivity].
Qed.

(** X17: a successful [set_session_based_prefs] changes the user's stored
    document in four fields at most: [user_preferences] that the document
    already has are kept as they are (they are not seeded again, whatever
    the legacy [preferences] say), and every field other than the two
    preference maps, [active_privileges] and [allowed_actions] is
    untouched; the documents of other users and the Session Store are as
    they were. *)
Theorem set_session_based_prefs_touches_four_fields
        (session_id user_id : pyval) (w : world) (user_doc legacy sp : pydict) :
  store_find_one (users w) user_id = PDict user_doc ->
  (dict_contains user_doc _user_preferences_key = false ->
   dict_get_default user_doc _preferences_key (PDict []) = PDict legacy) ->
  dict_get_default user_doc _session_preferences_key (PDict []) = PDict sp ->
  exists w' stored,
    set_session_based_prefs session_id user_id w = (Ok tt, w')
    /\ store_find_one (users w') user_id = PDict stored
    /\ (forall prefs, dict_get user_doc _user_preferences_key = Some prefs ->
                      dict_get stored _user_preferences_key = Some prefs)
    /\ (forall k, k <> _user_preferences_key -> k <> _session_preferences_key ->
                  k <> _privileges_key -> k <> _action_key ->
                  dict_get stored k = dict_get user_doc k)
    /\ (forall other, other <> user_id ->
                      store_find_one (users w') other = store_find_one (users w) other)
    /\ sessions w' = sessions w.
Proof.
  intros Hfind Hlegacy Hsp.
  destruct (set_session_based_prefs_world session_id user_id w user_doc legacy sp
              Hfind Hlegacy Hsp) as (m & Hrun & Hwf & Hid & _ & Hkept & Hrest).
  assert (dict_get (stamped m) "_id" = None) as Hsid
      by (rewrite stamped_get; simpl; exact Hid).
  exists {| users := store_update (users w) user_id (stamped m); sessions := sessions w |},
         (dict_update user_doc (stamped m)).
  split; [exact Hrun|]. cbn [users sessions].
  split; [apply store_update_found; auto using stamped_wf|].
  split; [|split; [|split]].
  - intros prefs Hprefs.
    rewrite dict_get_update, stamped_get by now apply stamped_wf.
    simpl String.eqb. cbn iota. rewrite Hkept; [exact Hprefs|].
    unfold dict_contains. now rewrite Hprefs.
  - intros k Hu Hs Hp Ha.
    rewrite dict_get_update, stamped_get by now apply stamped_wf.
    destruct (String.eqb_spec _action_key k); [congruence|].
    destruct (String.eqb_spec _privileges_key k); [congruence|].
    now rewrite Hrest.
  - intros other Hne. apply store_update_other; auto using stamped_wf.
  - reflexivity.
Qed.

(** X18: once [set_session_based_prefs] has succeeded for a session,
    [on_fetched_item] on the stored user document, asked for that session,
    does not raise: it narrows [session_preferences] to the session's
    entry, which is the entry the session had, or for a new session the
    seeded one. *)
Theorem fetch_after_set_session_based_prefs
        (rq : flask) (session_id user_id : pyval) (w : world)
        (user_doc legacy sp : pydict) :
  view_args_id rq = py_str session_id ->
  store_find_one (users w) user_id = PDict user_doc ->
  (dict_contains user_doc _user_preferences_key = false ->
   dict_get_default user_doc _preferences_key (PDict []) = PDict legacy) ->
  dict_get_default user_doc _session_preferences_key (PDict []) = PDict sp ->
  exists w' stored entry,
    set_session_based_prefs session_id user_id w = (Ok tt, w')
    /\ store_find_one (users w') user_id = PDict stored
    /\ on_fetched_item rq stored
       = (Ok tt, dict_set stored _session_preferences_key entry)
    /\ entry = match dict_get sp (py_str session_id) with
               | Some old => old
               | None => PDict (session_seed user_doc)
               end.
Proof.
  intros Hrq Hfind Hlegacy Hsp.
  destruct (set_session_based_prefs_world session_id user_id w user_doc legacy sp
              Hfind Hlegacy Hsp) as (m & Hrun & Hwf & Hid & Hmsp & _ & _).
  assert (dict_get (stamped m) "_id" = None) as Hsid
      by (rewrite stamped_get; simpl; exact Hid).
  exists {| users := store_update (users w) user_id (stamped m); sessions := sessions w |},
         (dict_update user_doc (stamped m)),
         (match dict_get sp (py_str session_id) with
          | Some old => old
          | None => PDict (session_seed user_doc)
          end).
  split; [exact Hrun|]. cbn [users].
  split; [apply store_update_found; auto using stamped_wf|].
  assert (dict_get (dict_update user_doc (stamped m)) _session_preferences_key
          = Some (PDict (dict_setdefault sp (py_str session_id)
                           (PDict (session_seed user_doc))))) as Hstored.
  { rewrite dict_get_update, stamped_get by now apply stamped_wf.
    simpl String.eqb. cbn iota. now rewrite Hmsp. }
  split; [|reflexivity].
  unfold on_fetched_item. run.
  rewrite (dict_get_default_some _ _ _ (PDict []) Hstored), Hrq.
  unfold py_getitem. rewrite dict_get_setdefault_eq.
  destruct (dict_get sp (py_str session_id)); reflexivity.
Qed.

End InitializingMore.

Lemma set_session_based_prefs_raises_cleanly_witness :
  @set_session_based_prefs newsroom (PStr "s7") (PObjectId "0ff") desk_world
  = (Raise TypeError, desk_world).
Proof.
  apply (proj2 (@set_session_based_prefs_raises_cleanly newsroom (PStr "s7")
                  (PObjectId "0ff") desk_world)).
  reflexivity.
Defined.

Lemma set_session_based_prefs_touches_four_fields_witness :
  exists w' stored,
    @set_session_based_prefs newsroom (PStr "s7") (PObjectId "b0b") desk_world
    = (Ok tt, w')
    /\ store_find_one (users w') (PObjectId "b0b") = PDict stored
    /\ dict_get stored _user_preferences_key
       = Some (PDict [("feature:preview", PBool false); ("archive:view", PStr "mgrid")])
    /\ dict_get stored "username" = Some (PStr "bob")
    /\ store_find_one (users w') (PObjectId "a11") = PDict user_ann.
Proof.
  destruct (@set_session_based_prefs_touches_four_fields newsroom (PStr "s7")
              (PObjectId "b0b") desk_world user_bob []
              [("s1", PDict [("desk:last_worked", PStr "sports"); ("pinned:items", PList [])]);
               ("s2", PDict [("desk:last_worked", PStr "politics")])])
    as (w' & stored & Hrun & Hstored & Hkept & Hrest & Hother & _);
    try reflexivity; try discriminate.
  exists w', stored. split; [exact Hrun|]. split; [exact Hstored|].
  split; [|split].
  - now apply Hkept.
  - rewrite Hrest by discriminate. reflexivity.
  - rewrite Hother by discriminate. reflexivity.
Defined.

Lemma fetch_after_set_session_based_prefs_witness :
  exists w' stored entry,
    @set_session_based_prefs newsroom (PStr "s3") (PObjectId "a11") desk_world
    = (Ok tt, w')
    /\ store_find_one (users w') (PObjectId "a11") = PDict stored
    /\ on_fetched_item {| view_args_id := "s3"; g_user := user_ann |} stored
       = (Ok tt, dict_set stored _session_preferences_key entry)
    /\ entry = PDict (@session_seed newsroom user_ann).
Proof.
  apply (@fetch_after_set_session_based_prefs newsroom
           {| view_args_id := "s3"; g_user := user_ann |} (PStr "s3") (PObjectId "a11")
           desk_world user_ann [("archive:view", PStr "compact")] []);
    reflexivity.
Defined.
